(** * The transcript controller of [src/pages/Index.tsx]

    A shallow embedding of the [Index] component's state and of its one
    event handler, [handleSendMessage], together with the parts of the
    browser platform the handler talks to ([String.prototype.trim],
    [Date.now], [JSON.parse], the body of a fetch [Response]).

    JavaScript strings are sequences of UTF-16 code units, modelled as
    [list N].  A response body is modelled by its decoded text.

    The handler is asynchronous with one suspension point, the [await] of
    [fetch]; it is modelled by two functions on the state, the part that
    runs before the await and the part that runs after it.  All its
    updates of the state are functional ([prev => ...]), so each half is
    one atomic step.  [console.log] is left out.

    The component exists in three revisions: [src/pages/Index.tsx], the
    one the properties are stated on, and [src/unnamed/part_000] and
    [src/unnamed/part_001], embedded in the modules [Part000] and
    [Part001]. *)

From Stdlib Require Import List NArith Bool Lia String Ascii DecimalString DecimalN.
Import ListNotations.

Set Warnings "-register-all".

Local Open Scope N_scope.
Local Open Scope list_scope.

(** ** JavaScript strings *)

Module JS.

Definition jsstring := list N.

(** A literal of the source, as code units. *)
Definition str (s : string) : jsstring :=
  map N_of_ascii (list_ascii_of_string s).

Fixpoint eqb (a b : jsstring) : bool :=
  match a, b with
  | [], [] => true
  | x :: a', y :: b' => N.eqb x y && eqb a' b'
  | _, _ => false
  end.

(** [!s] for a string: true exactly for the empty string. *)
Definition is_empty (s : jsstring) : bool :=
  match s with [] => true | _ :: _ => false end.

(** WhiteSpace and LineTerminator code points of ECMAScript, the ones
    [String.prototype.trim] strips. *)
Definition is_white_space (c : N) : bool :=
  (c =? 9) || (c =? 10) || (c =? 11) || (c =? 12) || (c =? 13) ||
  (c =? 32) || (c =? 160) || (c =? 5760) ||
  ((8192 <=? c) && (c <=? 8202)) ||
  (c =? 8232) || (c =? 8233) || (c =? 8239) || (c =? 8287) ||
  (c =? 12288) || (c =? 65279).

Fixpoint trim_start (s : jsstring) : jsstring :=
  match s with
  | [] => []
  | c :: s' => if is_white_space c then trim_start s' else s
  end.

Definition trim_end (s : jsstring) : jsstring :=
  rev (trim_start (rev s)).

(** [s.trim()] *)
Definition trim (s : jsstring) : jsstring := trim_end (trim_start s).

(** [n.toString()] for a non-negative integer below 10^21 (every time
    value and every HTTP status is): its decimal digits. *)
Definition toString (n : N) : jsstring :=
  str (NilZero.string_of_uint (N.to_uint n)).

End JS.

Import JS.

(** ** JSON values and [JSON.parse] *)

Module Json.

(** A value as [JSON.parse] returns it.  A number is kept as the literal
    that denotes it: which double it rounds to is left to the platform. *)
Inductive JSON : Type :=
| JNull
| JBool (b : bool)
| JNumber (literal : jsstring)
| JString (s : jsstring)
| JArray (items : list JSON)
| JObject (members : list (jsstring * JSON)).

(** Outcome of a parser on a prefix of the input. *)
Inductive Parse (A : Type) : Type :=
| Parsed (a : A) (rest : jsstring)
| SyntaxError
| OutOfFuel.
Arguments Parsed {A} a rest.
Arguments SyntaxError {A}.
Arguments OutOfFuel {A}.

(** JSON whitespace: space, tab, line feed, carriage return. *)
Definition is_ws (c : N) : bool :=
  (c =? 32) || (c =? 9) || (c =? 10) || (c =? 13).

Fixpoint skip_ws (s : jsstring) : jsstring :=
  match s with
  | [] => []
  | c :: s' => if is_ws c then skip_ws s' else s
  end.

Definition is_digit (c : N) : bool := (48 <=? c) && (c <=? 57).

Definition hex_value (c : N) : option N :=
  if is_digit c then Some (c - 48)
  else if (97 <=? c) && (c <=? 102) then Some (c - 87)
  else if (65 <=? c) && (c <=? 70) then Some (c - 55)
  else None.

Definition hex4 (a b c d : N) : option N :=
  match hex_value a, hex_value b, hex_value c, hex_value d with
  | Some x, Some y, Some z, Some w => Some (((x * 16 + y) * 16 + z) * 16 + w)
  | _, _, _, _ => None
  end.

(** The code unit a one-letter escape stands for. *)
Definition simple_escape (c : N) : option N :=
  if c =? 34 then Some 34          (* quote *)
  else if c =? 92 then Some 92     (* backslash *)
  else if c =? 47 then Some 47     (* slash *)
  else if c =? 98 then Some 8      (* b *)
  else if c =? 102 then Some 12    (* f *)
  else if c =? 110 then Some 10    (* n *)
  else if c =? 114 then Some 13    (* r *)
  else if c =? 116 then Some 9     (* t *)
  else None.

(** The characters of a string literal after its opening quote, up to
    and including the closing quote. *)
Fixpoint parse_chars (s : jsstring) (acc : jsstring) : Parse jsstring :=
  match s with
  | [] => SyntaxError
  | c :: rest =>
      if c =? 34 then Parsed (rev acc) rest
      else if c =? 92 then
        match rest with
        | [] => SyntaxError
        | e :: rest1 =>
            if e =? 117 then
              match rest1 with
              | h1 :: h2 :: h3 :: h4 :: rest2 =>
                  match hex4 h1 h2 h3 h4 with
                  | Some u => parse_chars rest2 (u :: acc)
                  | None => SyntaxError
                  end
              | _ => SyntaxError
              end
            else
              match simple_escape e with
              | Some u => parse_chars rest1 (u :: acc)
              | None => SyntaxError
              end
        end
      else if c <? 32 then SyntaxError
      else parse_chars rest (c :: acc)
  end.

Fixpoint span_digits (s : jsstring) : jsstring * jsstring :=
  match s with
  | [] => ([], [])
  | c :: s' =>
      if is_digit c then let (d, r) := span_digits s' in (c :: d, r)
      else ([], s)
  end.

(** The integer part: a single zero, or a non-zero digit and more digits. *)
Definition parse_int (s : jsstring) : Parse jsstring :=
  match s with
  | [] => SyntaxError
  | c :: s' =>
      if c =? 48 then Parsed [c] s'
      else if is_digit c then let (d, r) := span_digits s' in Parsed (c :: d) r
      else SyntaxError
  end.

Definition parse_frac (s : jsstring) : Parse jsstring :=
  match s with
  | c :: s' =>
      if c =? 46 then
        match span_digits s' with
        | ([], _) => SyntaxError
        | (d, r) => Parsed (c :: d) r
        end
      else Parsed [] s
  | [] => Parsed [] s
  end.

Definition parse_exp (s : jsstring) : Parse jsstring :=
  match s with
  | c :: s' =>
      if (c =? 101) || (c =? 69) then
        let (sign, s2) :=
          match s' with
          | g :: s'' => if (g =? 43) || (g =? 45) then ([g], s'') else ([], s')
          | [] => ([], s')
          end in
        match span_digits s2 with
        | ([], _) => SyntaxError
        | (d, r) => Parsed (c :: sign ++ d) r
        end
      else Parsed [] s
  | [] => Parsed [] s
  end.

(** A number literal; the result is the literal itself. *)
Definition parse_number (s : jsstring) : Parse jsstring :=
  let (minus, s1) :=
    match s with
    | c :: s' => if c =? 45 then ([c], s') else ([], s)
    | [] => ([], s)
    end in
  match parse_int s1 with
  | Parsed i s2 =>
      match parse_frac s2 with
      | Parsed f s3 =>
          match parse_exp s3 with
          | Parsed e s4 => Parsed (minus ++ i ++ f ++ e) s4
          | SyntaxError => SyntaxError
          | OutOfFuel => OutOfFuel
          end
      | SyntaxError => SyntaxError
      | OutOfFuel => OutOfFuel
      end
  | SyntaxError => SyntaxError
  | OutOfFuel => OutOfFuel
  end.

(** [expect w s] reads the word [w] off the front of [s]. *)
Fixpoint expect (w s : jsstring) : option jsstring :=
  match w, s with
  | [], _ => Some s
  | x :: w', y :: s' => if x =? y then expect w' s' else None
  | _ :: _, [] => None
  end.

Definition parse_word (w : string) (v : JSON) (s : jsstring) : Parse JSON :=
  match expect (str w) s with
  | Some rest => Parsed v rest
  | None => SyntaxError
  end.

(** Values, the elements of an array after its opening bracket and the
    members of an object after its opening brace. *)
Fixpoint parse_value (fuel : nat) (s : jsstring) : Parse JSON :=
  match fuel with
  | O => OutOfFuel
  | S fuel' =>
      match skip_ws s with
      | [] => SyntaxError
      | c :: rest =>
          if c =? 123 then
            match skip_ws rest with
            | d :: rest1 =>
                if d =? 125 then Parsed (JObject []) rest1
                else
                  match parse_members fuel' (skip_ws rest) [] with
                  | Parsed ms r => Parsed (JObject ms) r
                  | SyntaxError => SyntaxError
                  | OutOfFuel => OutOfFuel
                  end
            | [] => SyntaxError
            end
          else if c =? 91 then
            match skip_ws rest with
            | d :: rest1 =>
                if d =? 93 then Parsed (JArray []) rest1
                else
                  match parse_elements fuel' rest [] with
                  | Parsed vs r => Parsed (JArray vs) r
                  | SyntaxError => SyntaxError
                  | OutOfFuel => OutOfFuel
                  end
            | [] => SyntaxError
            end
          else if c =? 34 then
            match parse_chars rest [] with
            | Parsed t r => Parsed (JString t) r
            | SyntaxError => SyntaxError
            | OutOfFuel => OutOfFuel
            end
          else if c =? 116 then parse_word "true" (JBool true) (c :: rest)
          else if c =? 102 then parse_word "false" (JBool false) (c :: rest)
          else if c =? 110 then parse_word "null" JNull (c :: rest)
          else
            match parse_number (c :: rest) with
            | Parsed n r => Parsed (JNumber n) r
            | SyntaxError => SyntaxError
            | OutOfFuel => OutOfFuel
            end
      end
  end

with parse_elements (fuel : nat) (s : jsstring) (acc : list JSON)
  : Parse (list JSON) :=
  match fuel with
  | O => OutOfFuel
  | S fuel' =>
      match parse_value fuel' s with
      | Parsed v r =>
          match skip_ws r with
          | c :: r1 =>
              if c =? 44 then parse_elements fuel' r1 (v :: acc)
              else if c =? 93 then Parsed (rev (v :: acc)) r1
              else SyntaxError
          | [] => SyntaxError
          end
      | SyntaxError => SyntaxError
      | OutOfFuel => OutOfFuel
      end
  end

with parse_members (fuel : nat) (s : jsstring) (acc : list (jsstring * JSON))
  : Parse (list (jsstring * JSON)) :=
  match fuel with
  | O => OutOfFuel
  | S fuel' =>
      match s with
      | q :: s1 =>
          if q =? 34 then
            match parse_chars s1 [] with
            | Parsed k r =>
                match skip_ws r with
                | c :: r1 =>
                    if c =? 58 then
                      match parse_value fuel' r1 with
                      | Parsed v r2 =>
                          match skip_ws r2 with
                          | d :: r3 =>
                              if d =? 44 then
                                parse_members fuel' (skip_ws r3) ((k, v) :: acc)
                              else if d =? 125 then
                                Parsed (rev ((k, v) :: acc)) r3
                              else SyntaxError
                          | [] => SyntaxError
                          end
                      | SyntaxError => SyntaxError
                      | OutOfFuel => OutOfFuel
                      end
                    else SyntaxError
                | [] => SyntaxError
                end
            | SyntaxError => SyntaxError
            | OutOfFuel => OutOfFuel
            end
          else SyntaxError
      | [] => SyntaxError
      end
  end.

(** [JSON.parse(text)]: one value, surrounded by whitespace only.  [None]
    is a thrown SyntaxError.  Every call in a parse strictly shortens the
    input or follows one that did, so twice the length is fuel enough
    (lemma [JSON_parse_fuel]). *)
Definition JSON_parse (text : jsstring) : option JSON :=
  match parse_value (2 * List.length text + 2) text with
  | Parsed v rest =>
      match skip_ws rest with
      | [] => Some v
      | _ :: _ => None
      end
  | SyntaxError => None
  | OutOfFuel => None
  end.

End Json.

Import Json.

(** ** The component's data *)

(** [type: 'creator' | 'customer'] *)
Inductive MessageType : Type := creator | customer.

(** [interface Message].  The interface declares [text: string]; the value
    stored for a reply is whatever the response held, so [text] is a JSON
    value here.  [timestamp] is a time value in milliseconds. *)
Record Message : Type := {
  id : jsstring;
  text : JSON;
  type : MessageType;
  timestamp : N
}.

(** What is passed to [toast]. *)
Inductive Variant : Type := default | destructive.

Record Toast : Type := {
  title : jsstring;
  description : jsstring;
  variant : Variant
}.

(** The arguments of a call of [fetch]. *)
Module Request.
Record t : Type := {
  url : jsstring;
  method : jsstring;
  headers : list (jsstring * jsstring);
  body : jsstring
}.
End Request.

(** A fetch [Response]: its status and its body, [None] for a null body
    (the Fetch standard gives one to the statuses 204 and 205). *)
Module Response.
Record t : Type := {
  status : N;
  body : option jsstring
}.

(** [response.ok] *)
Definition ok (r : t) : bool := (200 <=? status r) && (status r <=? 299).
End Response.

(** How the promise of [fetch] settles. *)
Inductive Outcome : Type :=
| Rejected                      (* the request failed: the promise rejects *)
| Resolved (response : Response.t).

(** The three [useState] cells of [Index], and a log of the two effects
    that leave the component: the toasts shown and the requests sent. *)
Record State : Type := {
  messages : list Message;
  inputValue : jsstring;
  isLoading : bool;
  toasts : list Toast;
  requests : list Request.t
}.

Definition setMessages (f : list Message -> list Message) (st : State) : State :=
  {| messages := f (messages st); inputValue := inputValue st;
     isLoading := isLoading st; toasts := toasts st; requests := requests st |}.

Definition setInputValue (v : jsstring) (st : State) : State :=
  {| messages := messages st; inputValue := v;
     isLoading := isLoading st; toasts := toasts st; requests := requests st |}.

Definition setIsLoading (b : bool) (st : State) : State :=
  {| messages := messages st; inputValue := inputValue st;
     isLoading := b; toasts := toasts st; requests := requests st |}.

Definition toast (t : Toast) (st : State) : State :=
  {| messages := messages st; inputValue := inputValue st;
     isLoading := isLoading st; toasts := toasts st ++ [t];
     requests := requests st |}.

Definition fetch (r : Request.t) (st : State) : State :=
  {| messages := messages st; inputValue := inputValue st;
     isLoading := isLoading st; toasts := toasts st;
     requests := requests st ++ [r] |}.

(** The state [useState] starts from; [t0] is the time of the first render. *)
Definition initial (t0 : N) : State :=
  {| messages :=
       [ {| id := str "1";
            text := JString (str "Hey there! What can I help you with today?");
            type := creator;
            timestamp := t0 |} ];
     inputValue := [];
     isLoading := false;
     toasts := [];
     requests := [] |}.

(** The clock as the handler reads it before the request: [Date.now()]
    for the id, [new Date()] for each of the two timestamps. *)
Record SubmitClock : Type := {
  id_now : N;
  sent_at : N;
  typing_at : N
}.

(** The clock as read when the reply is appended: [Date.now()] for the
    id, [new Date()] for the timestamp. *)
Record ReplyClock : Type := {
  reply_now : N;
  reply_at : N
}.

(** [msg => msg.id !== 'typing'] *)
Definition not_typing (msg : Message) : bool :=
  negb (JS.eqb (id msg) (str "typing")).

(** What a [throw] carries. *)
Inductive Exn : Type := SyntaxErrorExn | TypeErrorExn.

Inductive Result (A : Type) : Type :=
| Return (a : A)
| Throw (e : Exn).
Arguments Return {A} a.
Arguments Throw {A} e.

Definition bind {A B : Type} (m : Result A) (k : A -> Result B) : Result B :=
  match m with
  | Return a => k a
  | Throw e => Throw e
  end.

Notation "x <- m ;; k" := (bind m (fun x => k))
  (at level 61, m at next level, right associativity).

(** ** The body of a response

    A body can be read once.  [json()] and [text()] read all of it before
    they convert it, so after [json()] has thrown a SyntaxError the body
    is used up and [text()] rejects with a TypeError.  A null body is
    never used up: it reads as the empty text.  The flag is [bodyUsed]. *)

Definition response_json (r : Response.t) (bodyUsed : bool)
  : Result JSON * bool :=
  match Response.body r with
  | None => (Throw SyntaxErrorExn, bodyUsed)
  | Some content =>
      if bodyUsed then (Throw TypeErrorExn, true)
      else
        (match JSON_parse content with
         | Some v => Return v
         | None => Throw SyntaxErrorExn
         end, true)
  end.

Definition response_text (r : Response.t) (bodyUsed : bool)
  : Result jsstring * bool :=
  match Response.body r with
  | None => (Return [], bodyUsed)
  | Some content =>
      if bodyUsed then (Throw TypeErrorExn, true)
      else (Return content, true)
  end.

(** ** Property access on a parsed value *)

(** The value of key [key] among the members of an object literal: the
    last one written wins. *)
Fixpoint lookup (key : jsstring) (ms : list (jsstring * JSON)) : option JSON :=
  match ms with
  | [] => None
  | (k, v) :: ms' =>
      match lookup key ms' with
      | Some w => Some w
      | None => if JS.eqb k key then Some v else None
      end
  end.

(** [v.key] for one of the keys the handler reads ([response], [message],
    [text]): a TypeError on [null], the member on an object, [undefined]
    ([None]) on every other value. *)
Definition member (v : JSON) (key : jsstring) : Result (option JSON) :=
  match v with
  | JNull => Throw TypeErrorExn
  | JObject ms => Return (lookup key ms)
  | JBool _ | JNumber _ | JString _ | JArray _ => Return None
  end.

(** ** Texts used in examples *)

(** A word between double quotes, as it is written in a JSON text. *)
Definition quoted (s : string) : jsstring := 34 :: str s ++ [34].

(** The text [{ "message" : "Hello" }] without its spaces. *)
Definition body_message_hello : jsstring :=
  str "{" ++ quoted "message" ++ str ":" ++ quoted "Hello" ++ str "}".

Definition body_plain_text : jsstring := str "plain text reply".

(** Clock readings and states of the examples. *)
Definition noon : SubmitClock :=
  {| id_now := 1700000000000;
     sent_at := 1700000000000;
     typing_at := 1700000000001 |}.

Definition later : ReplyClock :=
  {| reply_now := 1700000000500; reply_at := 1700000000500 |}.

(** The first render, with [hi] between spaces typed into the input. *)
Definition typed_hi : State := setInputValue (str "  hi ") (initial 0).

(** The first render, with spaces only typed into the input. *)
Definition typed_blank : State := setInputValue (str "   ") (initial 0).

(** A state with the flag set and text in the input. *)
Definition busy : State := setIsLoading true (setInputValue (str "hi") (initial 0)).

(** One choice of the two platform functions the controller is
    parametric in, to run it on examples.  [digits_truthy] calls a number
    literal truthy when its mantissa has a non-zero digit;
    [stringify_as_written] prints numbers as they were written and members
    in the order they were written. *)
Fixpoint digits_truthy (literal : jsstring) : bool :=
  match literal with
  | [] => false
  | c :: rest =>
      if (c =? 101) || (c =? 69) then false
      else ((49 <=? c) && (c <=? 57)) || digits_truthy rest
  end.

Definition escape_unit (c : N) : jsstring :=
  if c =? 34 then [92; 34]
  else if c =? 92 then [92; 92]
  else if c =? 10 then [92; 110]
  else if c =? 13 then [92; 114]
  else if c =? 9 then [92; 116]
  else [c].

Definition quote_string (s : jsstring) : jsstring :=
  34 :: flat_map escape_unit s ++ [34].

Fixpoint stringify_as_written (v : JSON) : jsstring :=
  match v with
  | JNull => str "null"
  | JBool true => str "true"
  | JBool false => str "false"
  | JNumber literal => literal
  | JString s => quote_string s
  | JArray items =>
      str "[" ++
      (fix items_text (l : list JSON) : jsstring :=
         match l with
         | [] => []
         | x :: l' =>
             stringify_as_written x ++
             match l' with [] => [] | _ :: _ => str "," ++ items_text l' end
         end) items ++ str "]"
  | JObject ms =>
      str "{" ++
      (fix members_text (l : list (jsstring * JSON)) : jsstring :=
         match l with
         | [] => []
         | (k, x) :: l' =>
             quote_string k ++ str ":" ++ stringify_as_written x ++
             match l' with [] => [] | _ :: _ => str "," ++ members_text l' end
         end) ms ++ str "}"
  end.

(** One choice of the conversion a template literal applies, with
    numbers printed as they were written: a string is itself, an array
    is its items joined by commas ([null] items give nothing), an object
    is [[object Object]], and an object with a member [toString] of its
    own throws, since that member is no function and [valueOf] gives
    back the object. *)
Fixpoint to_string_as_written (v : JSON) : Result jsstring :=
  match v with
  | JNull => Return (str "null")
  | JBool true => Return (str "true")
  | JBool false => Return (str "false")
  | JNumber literal => Return literal
  | JString s => Return s
  | JArray items =>
      (fix joined (l : list JSON) : Result jsstring :=
         match l with
         | [] => Return []
         | x :: l' =>
             bind
               match x with
               | JNull => Return []
               | _ => to_string_as_written x
               end
               (fun head =>
                  match l' with
                  | [] => Return head
                  | _ :: _ =>
                      bind (joined l')
                           (fun tail => Return (head ++ str "," ++ tail))
                  end)
         end) items
  | JObject ms =>
      match lookup (str "toString") ms with
      | Some _ => Throw TypeErrorExn
      | None => Return (str "[object Object]")
      end
  end.

(** The text [{ "message" : { "toString" : 1 } }] without its spaces. *)
Definition body_message_unprintable : jsstring :=
  str "{" ++ quoted "message" ++ str ":{" ++ quoted "toString" ++ str ":1}}".

(** The text [{ "message" : { "a" : 1 } }] without its spaces. *)
Definition body_message_object : jsstring :=
  str "{" ++ quoted "message" ++ str ":{" ++ quoted "a" ++ str ":1}}".

(** ** The controller *)

Section Controller.

(** ToBoolean of the double a number literal denotes (false for the zeros
    only), and [JSON.stringify] on a parsed value. *)
Variable number_truthy : jsstring -> bool.
Variable JSON_stringify : JSON -> jsstring.

(** ToBoolean of a parsed value. *)
Definition truthy (v : JSON) : bool :=
  match v with
  | JNull => false
  | JBool b => b
  | JNumber literal => number_truthy literal
  | JString s => negb (is_empty s)
  | JArray _ | JObject _ => true
  end.

(** [if (p) ... = p]: the property when it is defined and truthy. *)
Definition if_truthy (p : option JSON) : option JSON :=
  match p with
  | Some v => if truthy v then Some v else None
  | None => None
  end.

Definition webhook : jsstring :=
  str "https://burtsevtest.app.n8n.cloud/webhook-test/aichatdemo".

(** [handleSendMessage] up to its [await fetch(...)]: everything the
    handler does in the event that submits the form.  [e.preventDefault()]
    touches the event only. *)
Definition handleSendMessage (clock : SubmitClock) (st : State) : State :=
  if is_empty (trim (inputValue st)) then st
  else
    let messageText := trim (inputValue st) in
    let st1 := setIsLoading true st in
    let newMessage :=
      {| id := toString (id_now clock);
         text := JString messageText;
         type := customer;
         timestamp := sent_at clock |} in
    let st2 := setMessages (fun prev => prev ++ [newMessage]) st1 in
    let st3 := setInputValue [] st2 in
    let typingMessage :=
      {| id := str "typing";
         text := JString (str "AI is typing...");
         type := creator;
         timestamp := typing_at clock |} in
    let st4 := setMessages (fun prev => prev ++ [typingMessage]) st3 in
    fetch
      {| Request.url := webhook;
         Request.method := str "POST";
         Request.headers := [(str "Content-Type", str "application/json")];
         Request.body :=
           JSON_stringify (JObject [(str "message", JString messageText)]) |}
      st4.

(** The chain of [if (responseData.response) ... else if ...]: the first
    truthy one of the properties [response], [message], [text]; else the
    value itself when it is a string; else its [JSON.stringify]. *)
Definition extractMessage (responseData : JSON) : Result JSON :=
  r <- member responseData (str "response") ;;
  match if_truthy r with
  | Some v => Return v
  | None =>
      m <- member responseData (str "message") ;;
      match if_truthy m with
      | Some v => Return v
      | None =>
          t <- member responseData (str "text") ;;
          match if_truthy t with
          | Some v => Return v
          | None =>
              match responseData with
              | JString _ => Return responseData
              | _ => Return (JString (JSON_stringify responseData))
              end
          end
      end
  end.

(** The inner [try { ... } catch (jsonError) { ... }]: [responseMessage]
    when the block completes, the exception when [response.text()] in the
    catch clause throws. *)
Definition readResponseMessage (response : Response.t) : Result JSON :=
  let (responseData, bodyUsed) := response_json response false in
  match responseData <- responseData ;; extractMessage responseData with
  | Return responseMessage => Return responseMessage
  | Throw _ =>
      content <- fst (response_text response bodyUsed) ;;
      Return (JString content)
  end.

(** [responseMessage || 'No response received'] *)
Definition orNoResponse (responseMessage : JSON) : JSON :=
  if truthy responseMessage then responseMessage
  else JString (str "No response received").

(** The [catch (error)] clause of the outer [try]. *)
Definition connectionError (st : State) : State :=
  toast
    {| title := str "Connection Error";
       description :=
         str "Failed to connect to the webhook. Please try again.";
       variant := destructive |}
    (setMessages (filter not_typing) st).

(** [handleSendMessage] from its [await fetch(...)] on: what the handler
    does once the request has settled. *)
Definition handleSendMessage_settled
  (outcome : Outcome) (clock : ReplyClock) (st : State) : State :=
  let st' :=
    match outcome with
    | Rejected => connectionError st
    | Resolved response =>
        if Response.ok response then
          match readResponseMessage response with
          | Return responseMessage =>
              toast
                {| title := str "Response received";
                   description := str "AI has responded to your message.";
                   variant := default |}
                (setMessages
                   (fun prev =>
                      let withoutTyping := filter not_typing prev in
                      withoutTyping ++
                      [ {| id := toString (reply_now clock + 1);
                           text := orNoResponse responseMessage;
                           type := creator;
                           timestamp := reply_at clock |} ])
                   st)
          | Throw _ => connectionError st
          end
        else
          toast
            {| title := str "Webhook Error";
               description :=
                 str "Server responded with status " ++
                 toString (Response.status response);
               variant := destructive |}
            (setMessages (filter not_typing) st)
    end in
  setIsLoading false st'.

(** ** The form

    The input is [disabled={isLoading}], the button
    [disabled={isLoading || !inputValue.trim()}]. *)
Definition input_disabled (st : State) : bool := isLoading st.

Definition button_disabled (st : State) : bool :=
  isLoading st || is_empty (trim (inputValue st)).

(** What can happen to the component: the user edits the input (a
    disabled input takes no edit), the form is submitted, a request
    settles.  React renders between two events, so each event runs the
    handler that closes over the state the event before it left.  A
    submission is taken whether or not the button is disabled, and a
    request may settle at any time: the sequences of events of the
    running component are among these. *)
Inductive Event : Type :=
| Change (value : jsstring)
| Submit (clock : SubmitClock)
| Settle (outcome : Outcome) (clock : ReplyClock).

Definition dispatch (st : State) (e : Event) : State :=
  match e with
  | Change value => if input_disabled st then st else setInputValue value st
  | Submit clock => handleSendMessage clock st
  | Settle outcome clock => handleSendMessage_settled outcome clock st
  end.

Definition run (es : list Event) (st : State) : State :=
  fold_left dispatch es st.

End Controller.

(** ** The two other revisions of the component

    [src/unnamed/part_000] sends the message and shows no reply;
    [src/unnamed/part_001] shows the reply's [message] property. *)

Module Part000.
Section Controller.

Variable JSON_stringify : JSON -> jsstring.

Definition webhook : jsstring :=
  str "https://burtsevtest.app.n8n.cloud/webhook/gemini-webhook".

(** [handleSendMessage] up to its [await fetch(...)]. *)
Definition handleSendMessage (clock : SubmitClock) (st : State) : State :=
  if is_empty (trim (inputValue st)) then st
  else
    let messageText := trim (inputValue st) in
    let st1 := setIsLoading true st in
    let newMessage :=
      {| id := toString (id_now clock);
         text := JString messageText;
         type := customer;
         timestamp := sent_at clock |} in
    let st2 := setMessages (fun prev => prev ++ [newMessage]) st1 in
    let st3 := setInputValue [] st2 in
    fetch
      {| Request.url := webhook;
         Request.method := str "POST";
         Request.headers := [(str "Content-Type", str "application/json")];
         Request.body :=
           JSON_stringify (JObject [(str "messageText", JString messageText)]) |}
      st3.

(** [handleSendMessage] from its [await fetch(...)] on.  The status of
    the response is logged and not looked at. *)
Definition handleSendMessage_settled (outcome : Outcome) (st : State) : State :=
  let st' :=
    match outcome with
    | Resolved _ =>
        toast
          {| title := str "Message sent";
             description :=
               str "Your message has been processed successfully.";
             variant := default |}
          st
    | Rejected =>
        toast
          {| title := str "Warning";
             description := str "Message displayed but webhook call failed.";
             variant := destructive |}
          st
    end in
  setIsLoading false st'.

(** The form is the one of [Index.tsx]; the clock of a settled request
    is not read. *)
Definition dispatch (st : State) (e : Event) : State :=
  match e with
  | Change value => if input_disabled st then st else setInputValue value st
  | Submit clock => handleSendMessage clock st
  | Settle outcome _ => handleSendMessage_settled outcome st
  end.

Definition run (es : list Event) (st : State) : State :=
  fold_left dispatch es st.

End Controller.
End Part000.

Module Part001.
Section Controller.

(** ToBoolean of a number literal, [JSON.stringify], and the conversion
    to a string that a template literal applies to a parsed value.  The
    conversion throws a TypeError on a value it cannot turn into a
    primitive: an object with a member [toString] of its own, which JSON
    cannot make callable, or an array that holds one. *)
Variable number_truthy : jsstring -> bool.
Variable JSON_stringify : JSON -> jsstring.
Variable ToString : JSON -> Result jsstring.

Definition webhook : jsstring :=
  str "https://n8n.mjdraperiesandinteriors.com/webhook/aichatdemo".

(** [handleSendMessage] up to its [await fetch(...)]. *)
Definition handleSendMessage (clock : SubmitClock) (st : State) : State :=
  if is_empty (trim (inputValue st)) then st
  else
    let messageText := trim (inputValue st) in
    let st1 := setIsLoading true st in
    let newMessage :=
      {| id := toString (id_now clock);
         text := JString messageText;
         type := customer;
         timestamp := sent_at clock |} in
    let st2 := setMessages (fun prev => prev ++ [newMessage]) st1 in
    let st3 := setInputValue [] st2 in
    let typingMessage :=
      {| id := str "typing";
         text := JString (str "Typing...");
         type := creator;
         timestamp := typing_at clock |} in
    let st4 := setMessages (fun prev => prev ++ [typingMessage]) st3 in
    fetch
      {| Request.url := webhook;
         Request.method := str "POST";
         Request.headers := [(str "Content-Type", str "application/json")];
         Request.body :=
           JSON_stringify (JObject [(str "messageText", JString messageText)]) |}
      st4.

(** [responseData?.message || 'No message received from webhook'] *)
Definition actualMessage (responseData : JSON) : JSON :=
  let message :=
    match responseData with
    | JObject ms => lookup (str "message") ms
    | JNull | JBool _ | JNumber _ | JString _ | JArray _ => None
    end in
  match if_truthy number_truthy message with
  | Some v => v
  | None => JString (str "No message received from webhook")
  end.

(** The [catch (error)] clause. *)
Definition connectionError (st : State) : State :=
  toast
    {| title := str "Connection Error";
       description :=
         str "Failed to connect to the webhook. Please try again.";
       variant := destructive |}
    (setMessages (filter not_typing) st).

(** [handleSendMessage] from its [await fetch(...)] on.  The reply is
    queued by [setMessages] before the template literal of the toast is
    evaluated: when that conversion throws, the catch clause runs on a
    transcript that already holds the reply. *)
Definition handleSendMessage_settled
  (outcome : Outcome) (clock : ReplyClock) (st : State) : State :=
  let st' :=
    match outcome with
    | Rejected => connectionError st
    | Resolved response =>
        if Response.ok response then
          match fst (response_json response false) with
          | Return responseData =>
              let replied :=
                setMessages
                  (fun prev =>
                     let withoutTyping := filter not_typing prev in
                     withoutTyping ++
                     [ {| id := toString (reply_now clock + 1);
                          text := actualMessage responseData;
                          type := creator;
                          timestamp := reply_at clock |} ])
                  st in
              match ToString (actualMessage responseData) with
              | Return received =>
                  toast
                    {| title := str "Response received";
                       description := str "Received: " ++ received;
                       variant := default |}
                    replied
              | Throw _ => connectionError replied
              end
          | Throw _ => connectionError st
          end
        else
          toast
            {| title := str "Webhook Error";
               description :=
                 str "Server responded with status " ++
                 toString (Response.status response);
               variant := destructive |}
            (setMessages (filter not_typing) st)
    end in
  setIsLoading false st'.

(** The form is the one of [Index.tsx]. *)
Definition dispatch (st : State) (e : Event) : State :=
  match e with
  | Change value => if input_disabled st then st else setInputValue value st
  | Submit clock => handleSendMessage clock st
  | Settle outcome clock => handleSendMessage_settled outcome clock st
  end.

Definition run (es : list Event) (st : State) : State :=
  fold_left dispatch es st.

End Controller.
End Part001.


(** ** What is rendered

    The part of the JSX that depends on the state: one row per message,
    the input and the button.  [toLocaleTimeString] depends on the
    locale, so a row keeps the time value it would print. *)

Definition row_customer : jsstring := str "flex justify-end".
Definition row_creator : jsstring := str "flex justify-start".

Definition bubble_customer : jsstring :=
  str "max-w-xs lg:max-w-md px-4 py-3 rounded-lg shadow-sm bg-blue-500 text-white rounded-br-none".
Definition bubble_typing : jsstring :=
  str "max-w-xs lg:max-w-md px-4 py-3 rounded-lg shadow-sm bg-gray-300 text-gray-600 border border-gray-200 rounded-bl-none animate-pulse".
Definition bubble_creator : jsstring :=
  str "max-w-xs lg:max-w-md px-4 py-3 rounded-lg shadow-sm bg-white text-gray-800 border border-gray-200 rounded-bl-none".

Definition time_customer : jsstring := str "text-xs mt-1 text-blue-100".
Definition time_creator : jsstring := str "text-xs mt-1 text-gray-500".

(** The paragraph with the time: its class and the time value. *)
Record TimeLine : Type := {
  time_class : jsstring;
  time_value : N
}.

(** One [div] of the chat history: its key, the class of the row, the
    class of the bubble, the text shown and, unless the id is [typing],
    the time. *)
Record Row : Type := {
  key : jsstring;
  row_class : jsstring;
  bubble_class : jsstring;
  content : JSON;
  time : option TimeLine
}.

(** The body of [messages.map((message) => ...)]. *)
Definition renderMessage (message : Message) : Row :=
  {| key := id message;
     row_class :=
       match type message with
       | customer => row_customer
       | creator => row_creator
       end;
     bubble_class :=
       match type message with
       | customer => bubble_customer
       | creator =>
           if JS.eqb (id message) (str "typing") then bubble_typing
           else bubble_creator
       end;
     content := text message;
     time :=
       if not_typing message then
         Some {| time_class :=
                   match type message with
                   | customer => time_customer
                   | creator => time_creator
                   end;
                 time_value := timestamp message |}
       else None |}.

(** What [Index] returns, as far as it depends on the state. *)
Record View : Type := {
  rows : list Row;
  field_value : jsstring;
  field_disabled : bool;
  send_disabled : bool;
  send_label : jsstring
}.

(** The elements the function [Index] returns.  Returning them never
    throws; whether React can put them on the page is [display] below. *)
Definition render (st : State) : View :=
  {| rows := map renderMessage (messages st);
     field_value := inputValue st;
     field_disabled := input_disabled st;
     send_disabled := button_disabled st;
     send_label := if isLoading st then str "Sending..." else str "Send" |}.

(** What React accepts as the child [{message.text}]: a string or a
    number is shown, a boolean or [null] shows nothing, an array shows
    its items; an object is not a valid child and makes React throw. *)
Fixpoint valid_child (v : JSON) : bool :=
  match v with
  | JObject _ => false
  | JArray items =>
      (fix all_valid (l : list JSON) : bool :=
         match l with
         | [] => true
         | x :: l' => valid_child x && all_valid l'
         end) items
  | JNull | JBool _ | JNumber _ | JString _ => true
  end.

(** The page: the elements of [render] when React can mount every row,
    nothing when a row makes it throw (the component has no error
    boundary, so the page is then blank). *)
Definition display (st : State) : option View :=
  if forallb (fun m => valid_child (text m)) (messages st)
  then Some (render st)
  else None.

(** The row is the pulsing one of the typing indicator. *)
Definition pulsing (r : Row) : bool := JS.eqb (bubble_class r) bubble_typing.

Definition is_customer (m : Message) : bool :=
  match type m with customer => true | creator => false end.

Definition is_settle (e : Event) : bool :=
  match e with Settle _ _ => true | Change _ | Submit _ => false end.

(** The readings of the clock that become ids grow along the events:
    each [Date.now()] of a submission and each [Date.now() + 1] of a
    reply is above [low] and above those before it. *)
Fixpoint ids_grow (low : N) (es : list Event) : Prop :=
  match es with
  | [] => True
  | Change _ :: es' => ids_grow low es'
  | Submit clock :: es' => low < id_now clock /\ ids_grow (id_now clock) es'
  | Settle _ clock :: es' =>
      low < reply_now clock + 1 /\ ids_grow (reply_now clock + 1) es'
  end.

(** The placeholder as [handleSendMessage] of [Index.tsx] writes it. *)
Definition placeholder (t : N) : Message :=
  {| id := str "typing";
     text := JString (str "AI is typing...");
     type := creator;
     timestamp := t |}.

(** While the flag is set the input is empty and the transcript ends in
    its one placeholder; while it is not, there is no placeholder. *)
Definition waiting_or_idle (st : State) : Prop :=
  if isLoading st then
    inputValue st = []
    /\ exists front t,
         messages st = front ++ [placeholder t]
         /\ forallb not_typing front = true
  else forallb not_typing (messages st) = true.

(** * Properties *)

(** ** Strings and ids *)

Lemma JS_eqb_eq (a b : jsstring) : JS.eqb a b = true <-> a = b.
Proof.
  revert b; induction a as [|x a IH]; intros [|y b]; simpl;
    try (split; [discriminate | congruence]).
  - split; reflexivity.
  - rewrite andb_true_iff, N.eqb_eq, IH. split.
    + intros [-> ->]; reflexivity.
    + intros H; injection H; auto.
Qed.

(** The decimal digits of a number never spell the placeholder's id. *)
Lemma toString_not_typing (n : N) : JS.eqb (toString n) (str "typing") = false.
Proof.
  unfold toString. destruct (N.to_uint n); reflexivity.
Qed.

Lemma not_typing_spec (m : Message) :
  not_typing m = true <-> id m <> str "typing".
Proof.
  unfold not_typing. rewrite negb_true_iff. split.
  - intros H E. apply JS_eqb_eq in E. congruence.
  - intros H. destruct (JS.eqb (id m) (str "typing")) eqn:E; [|reflexivity].
    apply JS_eqb_eq in E. contradiction.
Qed.

Lemma filter_not_typing_idem (l : list Message) :
  filter not_typing (filter not_typing l) = filter not_typing l.
Proof.
  induction l as [|m l IH]; simpl; [reflexivity|].
  destruct (not_typing m) eqn:E; simpl; rewrite ?E, IH; reflexivity.
Qed.

Lemma filter_not_typing_free (l : list Message) (m : Message) :
  In m (filter not_typing l) -> id m <> str "typing".
Proof.
  intros H. apply filter_In in H. apply not_typing_spec, H.
Qed.

Lemma trim_start_nil_of_trim (s : jsstring) : trim s = [] -> trim_start s = [].
Proof.
  unfold trim, trim_end. intros H.
  destruct (trim_start s) as [|c t] eqn:E; [reflexivity|].
  exfalso.
  assert (W : is_white_space c = false).
  { destruct s as [|x s']; [discriminate|].
    revert x E. induction s' as [|y s' IH]; intros x E; simpl in E.
    - destruct (is_white_space x) eqn:Wx; [discriminate|].
      injection E as <- _. exact Wx.
    - destruct (is_white_space x) eqn:Wx.
      + apply (IH y). exact E.
      + injection E as <- _. exact Wx. }
  assert (R : rev (c :: t) <> []).
  { simpl. intros A. apply app_eq_nil in A. destruct A; discriminate. }
  assert (K : forall u, In c u -> trim_start u <> []).
  { induction u as [|y u IHu]; simpl; [tauto|].
    intros [->|Hin].
    - rewrite W. discriminate.
    - destruct (is_white_space y); [auto | discriminate]. }
  apply (K (rev (c :: t))).
  - apply in_rev. rewrite rev_involutive. left; reflexivity.
  - apply (f_equal (@rev N)) in H. rewrite rev_involutive in H. exact H.
Qed.

Lemma trim_start_whitespace (s : jsstring) :
  trim_start s = [] <-> forallb is_white_space s = true.
Proof.
  induction s as [|c s IH]; simpl; [tauto|].
  destruct (is_white_space c); simpl; [exact IH|].
  split; discriminate.
Qed.

(** The trimmed form is empty exactly for the texts made of whitespace. *)
Lemma trim_nil_iff_whitespace (s : jsstring) :
  trim s = [] <-> forallb is_white_space s = true.
Proof.
  rewrite <- trim_start_whitespace. split.
  - apply trim_start_nil_of_trim.
  - intros H. unfold trim. rewrite H. reflexivity.
Qed.

Lemma is_empty_spec (s : jsstring) : is_empty s = true <-> s = [].
Proof. destruct s; simpl; split; congruence. Qed.

(** ** The parser *)

Lemma skip_ws_le (s : jsstring) : (List.length (skip_ws s) <= List.length s)%nat.
Proof.
  induction s as [|c s IH]; simpl; [lia|].
  destruct (is_ws c); simpl; lia.
Qed.

Lemma parse_chars_lt_aux (n : nat) :
  forall s acc,
    (List.length s <= n)%nat ->
    parse_chars s acc <> OutOfFuel
    /\ forall t r, parse_chars s acc = Parsed t r ->
                   (List.length r < List.length s)%nat.
Proof.
  induction n as [|n IH]; intros s acc Hn.
  - destruct s; simpl in *; [|lia]. split; [discriminate|]. intros; discriminate.
  - destruct s as [|c rest]; simpl; [split; [discriminate|intros; discriminate]|].
    simpl in Hn.
    destruct (c =? 34).
    { split; [discriminate|]. intros t r E; injection E as _ <-. lia. }
    destruct (c =? 92).
    { destruct rest as [|e rest1]; [split; [discriminate|intros; discriminate]|].
      simpl in Hn.
      destruct (e =? 117).
      - destruct rest1 as [|h1 [|h2 [|h3 [|h4 rest2]]]];
          try (split; [discriminate|intros; discriminate]).
        simpl in Hn.
        destruct (hex4 h1 h2 h3 h4);
          [|split; [discriminate|intros; discriminate]].
        destruct (IH rest2 (n0 :: acc)) as [A B]; [lia|].
        split; [exact A|]. intros t r E. apply B in E. simpl. lia.
      - destruct (simple_escape e);
          [|split; [discriminate|intros; discriminate]].
        destruct (IH rest1 (n0 :: acc)) as [A B]; [lia|].
        split; [exact A|]. intros t r E. apply B in E. simpl. lia. }
    destruct (c <? 32); [split; [discriminate|intros; discriminate]|].
    destruct (IH rest (c :: acc)) as [A B]; [lia|].
    split; [exact A|]. intros t r E. apply B in E. lia.
Qed.

Lemma parse_chars_fuel (s acc : jsstring) : parse_chars s acc <> OutOfFuel.
Proof. apply (parse_chars_lt_aux (List.length s)). lia. Qed.

Lemma parse_chars_lt (s acc t r : jsstring) :
  parse_chars s acc = Parsed t r -> (List.length r < List.length s)%nat.
Proof. apply (parse_chars_lt_aux (List.length s)). lia. Qed.

Lemma span_digits_le (s : jsstring) :
  (List.length (snd (span_digits s)) <= List.length s)%nat.
Proof.
  induction s as [|c s IH]; simpl; [lia|].
  destruct (is_digit c); simpl; [|lia].
  destruct (span_digits s); simpl in *. lia.
Qed.


Lemma parse_int_lt (s i r : jsstring) :
  parse_int s = Parsed i r -> (List.length r < List.length s)%nat.
Proof.
  unfold parse_int. destruct s as [|c s']; [discriminate|].
  destruct (c =? 48).
  - intros E; injection E as _ <-. simpl; lia.
  - destruct (is_digit c); [|discriminate].
    pose proof (span_digits_le s') as L. destruct (span_digits s') as [d q].
    intros E; injection E as _ <-. simpl in *; lia.
Qed.

Lemma parse_frac_le (s f r : jsstring) :
  parse_frac s = Parsed f r -> (List.length r <= List.length s)%nat.
Proof.
  unfold parse_frac. destruct s as [|c s'].
  - intros E; injection E as _ <-. simpl; lia.
  - destruct (c =? 46).
    + pose proof (span_digits_le s') as L. destruct (span_digits s') as [[|d0 d] q];
        [discriminate|].
      intros E; injection E as _ <-. simpl in *; lia.
    + intros E; injection E as _ <-. simpl; lia.
Qed.

Lemma parse_exp_le (s e r : jsstring) :
  parse_exp s = Parsed e r -> (List.length r <= List.length s)%nat.
Proof.
  unfold parse_exp. destruct s as [|c s'].
  - intros E; injection E as _ <-. simpl; lia.
  - destruct ((c =? 101) || (c =? 69)).
    + destruct s' as [|g s''].
      * simpl. discriminate.
      * destruct ((g =? 43) || (g =? 45)).
        -- pose proof (span_digits_le s'') as L.
           destruct (span_digits s'') as [[|d0 d] q]; [discriminate|].
           intros E; injection E as _ <-. simpl in *; lia.
        -- pose proof (span_digits_le (g :: s'')) as L.
           destruct (span_digits (g :: s'')) as [[|d0 d] q]; [discriminate|].
           intros E; injection E as _ <-. simpl in *; lia.
    + intros E; injection E as _ <-. simpl; lia.
Qed.

Lemma parse_number_lt (s n r : jsstring) :
  parse_number s = Parsed n r -> (List.length r < List.length s)%nat.
Proof.
  unfold parse_number.
  set (p := match s with
            | [] => ([], s)
            | c :: s' => if c =? 45 then ([c], s') else ([], s)
            end).
  assert (L : (List.length (snd p) <= List.length s)%nat).
  { subst p. destruct s as [|c s']; simpl; [lia|].
    destruct (c =? 45); simpl; lia. }
  destruct p as [minus s1]. simpl in L.
  destruct (parse_int s1) as [i s2| |] eqn:Ei; try discriminate.
  destruct (parse_frac s2) as [f s3| |] eqn:Ef; try discriminate.
  destruct (parse_exp s3) as [e s4| |] eqn:Ee; try discriminate.
  intros E; injection E as _ <-.
  apply parse_int_lt in Ei. apply parse_frac_le in Ef. apply parse_exp_le in Ee.
  lia.
Qed.

Lemma parse_int_fuel (s : jsstring) : parse_int s <> OutOfFuel.
Proof.
  unfold parse_int. destruct s as [|c s']; [discriminate|].
  destruct (c =? 48); [discriminate|].
  destruct (is_digit c); [|discriminate].
  destruct (span_digits s'); discriminate.
Qed.

Lemma parse_frac_fuel (s : jsstring) : parse_frac s <> OutOfFuel.
Proof.
  unfold parse_frac. destruct s as [|c s']; [discriminate|].
  destruct (c =? 46); [|discriminate].
  destruct (span_digits s') as [[|d0 d] q]; discriminate.
Qed.

Lemma parse_exp_fuel (s : jsstring) : parse_exp s <> OutOfFuel.
Proof.
  unfold parse_exp. destruct s as [|c s']; [discriminate|].
  destruct ((c =? 101) || (c =? 69)); [|discriminate].
  destruct s' as [|g s'']; [discriminate|].
  destruct ((g =? 43) || (g =? 45)).
  - destruct (span_digits s'') as [[|d0 d] q]; discriminate.
  - destruct (span_digits (g :: s'')) as [[|d0 d] q]; discriminate.
Qed.

Lemma parse_number_fuel (s : jsstring) : parse_number s <> OutOfFuel.
Proof.
  unfold parse_number.
  destruct (match s with
            | [] => ([], s)
            | c :: s' => if c =? 45 then ([c], s') else ([], s)
            end) as [minus s1].
  pose proof (parse_int_fuel s1) as Fi.
  destruct (parse_int s1) as [i s2| |]; [|discriminate|contradiction].
  pose proof (parse_frac_fuel s2) as Ff.
  destruct (parse_frac s2) as [f s3| |]; [|discriminate|contradiction].
  pose proof (parse_exp_fuel s3) as Fe.
  destruct (parse_exp s3) as [e s4| |]; [discriminate|discriminate|contradiction].
Qed.

Lemma expect_length (w s r : jsstring) :
  expect w s = Some r -> (List.length r + List.length w = List.length s)%nat.
Proof.
  revert s. induction w as [|x w IH]; intros [|y s]; simpl; intros E;
    try discriminate; try (injection E as <-; simpl; lia).
  destruct (x =? y); [|discriminate]. apply IH in E. lia.
Qed.

Lemma parse_word_lt (w : string) (v v' : JSON) (s r : jsstring) :
  str w <> [] ->
  parse_word w v s = Parsed v' r -> (List.length r < List.length s)%nat.
Proof.
  unfold parse_word. intros W.
  destruct (expect (str w) s) as [rest|] eqn:E; [|discriminate].
  intros P; injection P as _ <-. apply expect_length in E.
  destruct (str w); [contradiction|]. simpl in E. lia.
Qed.

Lemma parse_word_fuel (w : string) (v : JSON) (s : jsstring) :
  parse_word w v s <> OutOfFuel.
Proof. unfold parse_word. destruct (expect (str w) s); discriminate. Qed.

(** Fuel is never what a parse stops on when there are two units of it
    for each code unit of the input; and a value parsed is a value read. *)
Lemma parse_fuel (fuel : nat) :
  (forall s, (2 * List.length s + 1 <= fuel)%nat ->
             parse_value fuel s <> OutOfFuel)
  /\ (forall s v r, parse_value fuel s = Parsed v r ->
                    (List.length r < List.length s)%nat)
  /\ (forall s acc, (2 * List.length s + 2 <= fuel)%nat ->
                    parse_elements fuel s acc <> OutOfFuel)
  /\ (forall s acc vs r, parse_elements fuel s acc = Parsed vs r ->
                         (List.length r < List.length s)%nat)
  /\ (forall s acc, (2 * List.length s + 1 <= fuel)%nat ->
                    parse_members fuel s acc <> OutOfFuel)
  /\ (forall s acc ms r, parse_members fuel s acc = Parsed ms r ->
                         (List.length r < List.length s)%nat).
Proof.
  induction fuel as [|fuel (Vf & Vl & Ef & El & Mf & Ml)].
  { repeat split; intros; simpl in *; try discriminate; lia. }
  repeat split.
  - (* values: fuel *)
    intros s Hs. simpl.
    pose proof (skip_ws_le s) as Ls.
    destruct (skip_ws s) as [|c rest]; [discriminate|]. simpl in Ls.
    destruct (c =? 123).
    { pose proof (skip_ws_le rest) as Lr.
      destruct (skip_ws rest) as [|d rest1] eqn:Er; [discriminate|].
      destruct (d =? 125); [discriminate|].
      pose proof (Mf (d :: rest1) []) as F. simpl in Lr, F.
      destruct (parse_members fuel (d :: rest1) []); try discriminate.
      exfalso. apply F; [lia | reflexivity]. }
    destruct (c =? 91).
    { pose proof (skip_ws_le rest) as Lr.
      destruct (skip_ws rest) as [|d rest1] eqn:Er; [discriminate|].
      destruct (d =? 93); [discriminate|].
      pose proof (Ef rest []) as F.
      destruct (parse_elements fuel rest []); try discriminate.
      exfalso. apply F; [lia | reflexivity]. }
    destruct (c =? 34).
    { pose proof (parse_chars_fuel rest []) as F.
      destruct (parse_chars rest []); try discriminate. contradiction. }
    destruct (c =? 116); [apply parse_word_fuel|].
    destruct (c =? 102); [apply parse_word_fuel|].
    destruct (c =? 110); [apply parse_word_fuel|].
    pose proof (parse_number_fuel (c :: rest)) as F.
    destruct (parse_number (c :: rest)); try discriminate. contradiction.
  - (* values: progress *)
    intros s v r. simpl.
    pose proof (skip_ws_le s) as Ls.
    destruct (skip_ws s) as [|c rest]; [discriminate|]. simpl in Ls.
    destruct (c =? 123).
    { pose proof (skip_ws_le rest) as Lr.
      destruct (skip_ws rest) as [|d rest1] eqn:Er; [discriminate|].
      simpl in Lr.
      destruct (d =? 125).
      - intros E; injection E as _ <-. lia.
      - destruct (parse_members fuel (d :: rest1) []) eqn:P; try discriminate.
        intros E; injection E as _ <-. apply Ml in P. simpl in P. lia. }
    destruct (c =? 91).
    { pose proof (skip_ws_le rest) as Lr.
      destruct (skip_ws rest) as [|d rest1] eqn:Er; [discriminate|].
      simpl in Lr.
      destruct (d =? 93).
      - intros E; injection E as _ <-. lia.
      - destruct (parse_elements fuel rest []) eqn:P; try discriminate.
        intros E; injection E as _ <-. apply El in P. lia. }
    destruct (c =? 34).
    { destruct (parse_chars rest []) eqn:P; try discriminate.
      intros E; injection E as _ <-. apply parse_chars_lt in P. lia. }
    destruct (c =? 116).
    { intros E. apply parse_word_lt in E; [simpl in E; lia | discriminate]. }
    destruct (c =? 102).
    { intros E. apply parse_word_lt in E; [simpl in E; lia | discriminate]. }
    destruct (c =? 110).
    { intros E. apply parse_word_lt in E; [simpl in E; lia | discriminate]. }
    destruct (parse_number (c :: rest)) eqn:P; try discriminate.
    intros E; injection E as _ <-. apply parse_number_lt in P. simpl in P. lia.
  - (* elements: fuel *)
    intros s acc Hs. simpl.
    pose proof (Vf s) as F.
    destruct (parse_value fuel s) as [v r| |] eqn:P;
      [|discriminate|exfalso; apply F; [lia|reflexivity]].
    apply Vl in P. pose proof (skip_ws_le r) as Lr.
    destruct (skip_ws r) as [|c r1]; [discriminate|]. simpl in Lr.
    destruct (c =? 44); [apply Ef; lia|].
    destruct (c =? 93); discriminate.
  - (* elements: progress *)
    intros s acc vs r. simpl.
    destruct (parse_value fuel s) as [v r0| |] eqn:P; try discriminate.
    apply Vl in P. pose proof (skip_ws_le r0) as Lr.
    destruct (skip_ws r0) as [|c r1]; [discriminate|]. simpl in Lr.
    destruct (c =? 44).
    { intros E. apply El in E. lia. }
    destruct (c =? 93); [|discriminate].
    intros E; injection E as _ <-. lia.
  - (* members: fuel *)
    intros s acc Hs. simpl.
    destruct s as [|q s1]; [discriminate|]. simpl in Hs.
    destruct (q =? 34); [|discriminate].
    pose proof (parse_chars_fuel s1 []) as Fc.
    destruct (parse_chars s1 []) as [k r| |] eqn:P;
      [|discriminate|contradiction].
    apply parse_chars_lt in P. pose proof (skip_ws_le r) as Lr.
    destruct (skip_ws r) as [|c r1]; [discriminate|]. simpl in Lr.
    destruct (c =? 58); [|discriminate].
    pose proof (Vf r1) as F.
    destruct (parse_value fuel r1) as [v r2| |] eqn:Pv;
      [|discriminate|exfalso; apply F; [lia|reflexivity]].
    apply Vl in Pv. pose proof (skip_ws_le r2) as Lr2.
    destruct (skip_ws r2) as [|d r3]; [discriminate|]. simpl in Lr2.
    destruct (d =? 44).
    { apply Mf. pose proof (skip_ws_le r3). lia. }
    destruct (d =? 125); discriminate.
  - (* members: progress *)
    intros s acc ms r. simpl.
    destruct s as [|q s1]; [discriminate|].
    destruct (q =? 34); [|discriminate].
    destruct (parse_chars s1 []) as [k r0| |] eqn:P; try discriminate.
    apply parse_chars_lt in P. pose proof (skip_ws_le r0) as Lr.
    destruct (skip_ws r0) as [|c r1]; [discriminate|]. simpl in Lr.
    destruct (c =? 58); [|discriminate].
    destruct (parse_value fuel r1) as [v r2| |] eqn:Pv; try discriminate.
    apply Vl in Pv. pose proof (skip_ws_le r2) as Lr2.
    destruct (skip_ws r2) as [|d r3]; [discriminate|]. simpl in Lr2.
    destruct (d =? 44).
    { intros E. apply Ml in E. pose proof (skip_ws_le r3). simpl. lia. }
    destruct (d =? 125); [|discriminate].
    intros E; injection E as _ <-. simpl. lia.
Qed.

(** [JSON_parse] gives [None] for a syntax error only. *)
Lemma JSON_parse_fuel (content : jsstring) :
  parse_value (2 * List.length content + 2) content <> OutOfFuel.
Proof. apply parse_fuel. lia. Qed.

(** ** The handler *)

Section Facts.

Variable number_truthy : jsstring -> bool.
Variable JSON_stringify : JSON -> jsstring.

Local Abbreviation submit := (handleSendMessage JSON_stringify).
Local Abbreviation settled := (handleSendMessage_settled number_truthy JSON_stringify).
Local Abbreviation readMessage := (readResponseMessage number_truthy JSON_stringify).
Local Abbreviation orFallback := (orNoResponse number_truthy).

(** What a submission with text does to the state. *)
Lemma submit_nonblank (clock : SubmitClock) (st : State) :
  trim (inputValue st) <> [] ->
  submit clock st =
  {| messages :=
       messages st ++
       [ {| id := toString (id_now clock);
            text := JString (trim (inputValue st));
            type := customer;
            timestamp := sent_at clock |};
         {| id := str "typing";
            text := JString (str "AI is typing...");
            type := creator;
            timestamp := typing_at clock |} ];
     inputValue := [];
     isLoading := true;
     toasts := toasts st;
     requests :=
       requests st ++
       [ {| Request.url := webhook;
            Request.method := str "POST";
            Request.headers := [(str "Content-Type", str "application/json")];
            Request.body :=
              JSON_stringify
                (JObject [(str "message", JString (trim (inputValue st)))]) |} ]
  |}.
Proof.
  intros H. unfold handleSendMessage.
  destruct (is_empty (trim (inputValue st))) eqn:E.
  - apply is_empty_spec in E. contradiction.
  - unfold fetch, setMessages, setInputValue, setIsLoading; simpl.
    rewrite <- app_assoc. reflexivity.
Qed.

Lemma orNoResponse_truthy (m : JSON) : truthy number_truthy (orFallback m) = true.
Proof.
  unfold orNoResponse. destruct (truthy number_truthy m) eqn:E; [exact E|reflexivity].
Qed.

(** The transcript after a request has settled: the placeholders are
    gone, and at most one message, the reply, is appended. *)
Lemma settled_messages (outcome : Outcome) (clock : ReplyClock) (st : State) :
  messages (settled outcome clock st) = filter not_typing (messages st)
  \/ exists responseMessage,
       messages (settled outcome clock st) =
       filter not_typing (messages st) ++
       [ {| id := toString (reply_now clock + 1);
            text := orFallback responseMessage;
            type := creator;
            timestamp := reply_at clock |} ].
Proof.
  unfold handleSendMessage_settled.
  destruct outcome as [|response]; simpl; [left; reflexivity|].
  destruct (Response.ok response); simpl; [|left; reflexivity].
  destruct (readMessage response) as [m|e]; simpl.
  - right. exists m. reflexivity.
  - left. reflexivity.
Qed.

(** C3: for every input whose trimmed form is the empty string, the
    handler returns at once: the state is the one it was called in, so no
    message is appended and no request is issued. *)
Theorem blank_input_is_ignored (clock : SubmitClock) (st : State) :
  trim (inputValue st) = [] ->
  submit clock st = st
  /\ messages (submit clock st) = messages st
  /\ requests (submit clock st) = requests st.
Proof.
  intros H.
  assert (E : submit clock st = st).
  { unfold handleSendMessage. rewrite H. reflexivity. }
  rewrite E. auto.
Qed.

(** C10: after a request has settled, whichever way, no entry of the
    transcript has the id [typing], however many had it before. *)
Theorem settled_leaves_no_placeholder
  (outcome : Outcome) (clock : ReplyClock) (st : State) :
  Forall (fun m => id m <> str "typing")
         (messages (settled outcome clock st)).
Proof.
  apply Forall_forall. intros m.
  destruct (settled_messages outcome clock st) as [E | [r E]]; rewrite E.
  - apply filter_not_typing_free.
  - intros H. apply in_app_or in H. destruct H as [H | [<- | []]].
    + revert H. apply filter_not_typing_free.
    + simpl. intros A. apply JS_eqb_eq in A.
      rewrite toString_not_typing in A. discriminate.
Qed.

(** [Index.tsx] on a response whose status is not 2xx (500 is one): the
    placeholders are filtered out of the transcript and nothing is
    appended to it, and exactly one toast is shown, a destructive one
    that carries the status. *)
Lemma http_error_removes_placeholder_and_notifies_once
  (response : Response.t) (clock : ReplyClock) (st : State) :
  Response.ok response = false ->
  let st' := settled (Resolved response) clock st in
  messages st' = filter not_typing (messages st)
  /\ Forall (fun m => id m <> str "typing") (messages st')
  /\ toasts st' =
     toasts st ++
     [ {| title := str "Webhook Error";
          description :=
            str "Server responded with status " ++
            toString (Response.status response);
          variant := destructive |} ]
  /\ isLoading st' = false.
Proof.
  intros H. unfold handleSendMessage_settled. rewrite H. simpl.
  repeat split. apply Forall_forall. intros m. apply filter_not_typing_free.
Qed.

(** C7: when the request is rejected the state ends as it does on a
    response that is not 2xx: the same transcript, the placeholders
    filtered out and nothing appended, so that no entry with the id
    [typing] is left in either, the same input, flag and request log,
    and in both exactly one toast, a destructive one. *)
Theorem network_error_behaves_as_http_error
  (response : Response.t) (clock : ReplyClock) (st : State) :
  Response.ok response = false ->
  let thrown := settled Rejected clock st in
  let failed := settled (Resolved response) clock st in
  messages thrown = messages failed
  /\ messages thrown = filter not_typing (messages st)
  /\ inputValue thrown = inputValue failed
  /\ isLoading thrown = isLoading failed
  /\ requests thrown = requests failed
  /\ (exists t u,
        toasts thrown = toasts st ++ [t] /\ variant t = destructive
        /\ toasts failed = toasts st ++ [u] /\ variant u = destructive)
  /\ Forall (fun m => id m <> str "typing") (messages thrown)
  /\ Forall (fun m => id m <> str "typing") (messages failed).
Proof.
  intros H.
  assert (K : Forall (fun m => id m <> str "typing")
                     (filter not_typing (messages st))).
  { apply Forall_forall. intros m. apply filter_not_typing_free. }
  unfold handleSendMessage_settled. rewrite H. simpl.
  repeat split; try exact K. do 2 eexists. repeat split.
Qed.

(** C4: on a 2xx response whose body is the JSON text with the one
    member [message] of value [Hello], the placeholders are filtered out
    and one message is appended, of type [creator] and text [Hello]. *)
Theorem message_hello_is_shown
  (status : N) (clock : ReplyClock) (st : State) :
  200 <= status <= 299 ->
  messages
    (settled
       (Resolved {| Response.status := status;
                    Response.body := Some body_message_hello |})
       clock st)
  = filter not_typing (messages st) ++
    [ {| id := toString (reply_now clock + 1);
         text := JString (str "Hello");
         type := creator;
         timestamp := reply_at clock |} ].
Proof.
  intros [Hlo Hhi]. unfold handleSendMessage_settled, Response.ok. simpl.
  apply N.leb_le in Hlo, Hhi. rewrite Hlo, Hhi. reflexivity.
Qed.

(** *** A body that is not JSON *)

(** Once [json()] has read a body that does not parse, [text()] in the
    catch clause finds the body used up and throws in turn. *)
Lemma unparsable_body_throws (response : Response.t) (content : jsstring) :
  Response.body response = Some content ->
  JSON_parse content = None ->
  readMessage response = Throw TypeErrorExn.
Proof.
  intros Hb Hp. unfold readResponseMessage, response_json, response_text.
  rewrite Hb, Hp. reflexivity.
Qed.

(** The body [null] parses, the property access on it throws inside the
    [try], and the catch clause throws as above. *)
Lemma null_body_throws (response : Response.t) (content : jsstring) :
  Response.body response = Some content ->
  JSON_parse content = Some JNull ->
  readMessage response = Throw TypeErrorExn.
Proof.
  intros Hb Hp. unfold readResponseMessage, response_json, response_text.
  rewrite Hb, Hp. reflexivity.
Qed.

(** A response without a body is the one case in which the catch clause
    yields a text, the empty one. *)
Lemma null_stream_reads_empty (response : Response.t) :
  Response.body response = None ->
  readMessage response = Return (JString []).
Proof.
  intros Hb. unfold readResponseMessage, response_json, response_text.
  rewrite Hb. reflexivity.
Qed.

Lemma extractMessage_returns (responseData : JSON) :
  responseData <> JNull ->
  exists responseMessage,
    extractMessage number_truthy JSON_stringify responseData
    = Return responseMessage.
Proof.
  intros H. unfold extractMessage.
  destruct responseData as [|b|n|s|l|ms]; try contradiction; simpl;
    try (eexists; reflexivity).
  destruct (if_truthy number_truthy (lookup (str "response") ms));
    [eexists; reflexivity|].
  destruct (if_truthy number_truthy (lookup (str "message") ms));
    [eexists; reflexivity|].
  destruct (if_truthy number_truthy (lookup (str "text") ms));
    eexists; reflexivity.
Qed.

(** The order of the chain on an object: [response] before [message]
    before [text], each taken when it is there and truthy; a string is
    taken as it is; any other value is serialised. *)
Lemma extractMessage_object (ms : list (jsstring * JSON)) :
  extractMessage number_truthy JSON_stringify (JObject ms)
  = Return
      match if_truthy number_truthy (lookup (str "response") ms) with
      | Some v => v
      | None =>
          match if_truthy number_truthy (lookup (str "message") ms) with
          | Some v => v
          | None =>
              match if_truthy number_truthy (lookup (str "text") ms) with
              | Some v => v
              | None => JString (JSON_stringify (JObject ms))
              end
          end
      end.
Proof.
  unfold extractMessage. simpl.
  destruct (if_truthy number_truthy (lookup (str "response") ms));
    [reflexivity|].
  destruct (if_truthy number_truthy (lookup (str "message") ms));
    [reflexivity|].
  destruct (if_truthy number_truthy (lookup (str "text") ms)); reflexivity.
Qed.

Lemma extractMessage_string (s : jsstring) :
  extractMessage number_truthy JSON_stringify (JString s) = Return (JString s).
Proof. reflexivity. Qed.

Lemma extractMessage_other (responseData : JSON) :
  match responseData with
  | JBool _ | JNumber _ | JArray _ =>
      extractMessage number_truthy JSON_stringify responseData
      = Return (JString (JSON_stringify responseData))
  | JNull =>
      extractMessage number_truthy JSON_stringify responseData
      = Throw TypeErrorExn
  | JString _ | JObject _ => True
  end.
Proof. destruct responseData; reflexivity || exact I. Qed.

(** A body that parses to a value other than [null] always yields a
    message. *)
Lemma parsed_body_returns
  (response : Response.t) (content : jsstring) (responseData : JSON) :
  Response.body response = Some content ->
  JSON_parse content = Some responseData ->
  responseData <> JNull ->
  readMessage response
  = extractMessage number_truthy JSON_stringify responseData
  /\ exists responseMessage, readMessage response = Return responseMessage.
Proof.
  intros Hb Hp Hn. destruct (extractMessage_returns responseData Hn) as [m E].
  unfold readResponseMessage, response_json. rewrite Hb, Hp. simpl.
  rewrite E. split; [reflexivity | exists m; reflexivity].
Qed.

(** The text of a reply is truthy, so it is never the empty string. *)
Lemma reply_text_not_empty (responseMessage : JSON) :
  orFallback responseMessage <> JString [].
Proof.
  intros E. pose proof (orNoResponse_truthy responseMessage) as T.
  rewrite E in T. discriminate.
Qed.

(** A submission with text, answered by a response whose body yields a
    message: the transcript gains the trimmed input as a [customer]
    message and the reply as a [creator] message, and keeps no
    placeholder. *)
Lemma submit_then_reply
  (clock : SubmitClock) (response : Response.t) (reply : ReplyClock)
  (responseMessage : JSON) (st : State) :
  trim (inputValue st) <> [] ->
  Response.ok response = true ->
  readMessage response = Return responseMessage ->
  messages (settled (Resolved response) reply (submit clock st))
  = filter not_typing (messages st) ++
    [ {| id := toString (id_now clock);
         text := JString (trim (inputValue st));
         type := customer;
         timestamp := sent_at clock |};
      {| id := toString (reply_now reply + 1);
         text := orFallback responseMessage;
         type := creator;
         timestamp := reply_at reply |} ].
Proof.
  intros Hin Hok Hread. rewrite (submit_nonblank clock st Hin).
  unfold handleSendMessage_settled. rewrite Hok, Hread. simpl.
  rewrite filter_app. simpl. unfold not_typing at 2. simpl.
  rewrite toString_not_typing. simpl. rewrite <- app_assoc. reflexivity.
Qed.

(** C5: on the response 200 whose body is the text [plain text reply],
    which is not JSON, the handler ends in its outer catch clause: the
    placeholders are filtered out, no message is appended, and the one
    toast shown is the destructive [Connection Error]. *)
Theorem plain_text_body_is_not_shown (clock : ReplyClock) (st : State) :
  let st' :=
    settled
      (Resolved {| Response.status := 200;
                   Response.body := Some body_plain_text |})
      clock st in
  JSON_parse body_plain_text = None
  /\ messages st' = filter not_typing (messages st)
  /\ toasts st' =
     toasts st ++
     [ {| title := str "Connection Error";
          description :=
            str "Failed to connect to the webhook. Please try again.";
          variant := destructive |} ].
Proof.
  repeat split.
Qed.

(** C8: on a 2xx response whose body is there and is not JSON, the step
    that falls back to the raw text of the body throws instead of giving
    a text: no message is read, none is appended, and the user is shown
    the destructive [Connection Error]. *)
Theorem raw_text_fallback_throws
  (response : Response.t) (content : jsstring)
  (clock : ReplyClock) (st : State) :
  Response.ok response = true ->
  Response.body response = Some content ->
  JSON_parse content = None ->
  let st' := settled (Resolved response) clock st in
  readMessage response = Throw TypeErrorExn
  /\ messages st' = filter not_typing (messages st)
  /\ exists t, toasts st' = toasts st ++ [t] /\ variant t = destructive.
Proof.
  intros Hok Hb Hp. pose proof (unparsable_body_throws response content Hb Hp) as E.
  unfold handleSendMessage_settled. rewrite Hok, E. simpl.
  repeat split. eexists. split; reflexivity.
Qed.

(** C1: a submission with text, answered 200 with the body
    [plain text reply]: the transcript gains the trimmed input as a
    [customer] message and nothing else, no reply is appended. *)
Theorem text_reply_leaves_no_remote_message
  (clock : SubmitClock) (reply : ReplyClock) (st : State) :
  trim (inputValue st) <> [] ->
  messages
    (settled
       (Resolved {| Response.status := 200;
                    Response.body := Some body_plain_text |})
       reply (submit clock st))
  = filter not_typing (messages st) ++
    [ {| id := toString (id_now clock);
         text := JString (trim (inputValue st));
         type := customer;
         timestamp := sent_at clock |} ].
Proof.
  intros Hin. rewrite (submit_nonblank clock st Hin).
  unfold handleSendMessage_settled. simpl.
  rewrite filter_app. simpl. unfold not_typing at 2. simpl.
  rewrite toString_not_typing. reflexivity.
Qed.

(** *** Sequences of events *)

Local Abbreviation step := (dispatch number_truthy JSON_stringify).
Local Abbreviation runs := (run number_truthy JSON_stringify).

Lemma submit_messages (clock : SubmitClock) (st : State) :
  exists added, messages (submit clock st) = messages st ++ added.
Proof.
  destruct (is_empty (trim (inputValue st))) eqn:E.
  - exists []. unfold handleSendMessage. rewrite E, app_nil_r. reflexivity.
  - eexists. rewrite submit_nonblank; [reflexivity|].
    intros A. apply is_empty_spec in A. congruence.
Qed.

(** One event either appends to the transcript, or filters the
    placeholders out of it and appends. *)
Lemma dispatch_messages (st : State) (e : Event) :
  exists added,
    messages (step st e) = messages st ++ added
    \/ messages (step st e) = filter not_typing (messages st) ++ added.
Proof.
  destruct e as [value|clock|outcome clock]; simpl.
  - exists []. left. rewrite app_nil_r.
    destruct (input_disabled st); reflexivity.
  - destruct (submit_messages clock st) as [added E]. exists added. auto.
  - destruct (settled_messages outcome clock st) as [E | [r E]].
    + exists []. right. rewrite app_nil_r. exact E.
    + eexists. right. exact E.
Qed.

Lemma dispatch_keeps_messages (st : State) (e : Event) :
  exists kept,
    filter not_typing (messages (step st e))
    = filter not_typing (messages st) ++ kept.
Proof.
  destruct (dispatch_messages st e) as [added [E|E]]; rewrite E;
    rewrite filter_app, ?filter_not_typing_idem; eexists; reflexivity.
Qed.

(** An entry with the id [typing] is a placeholder as the handler
    writes it; one event keeps it so. *)
Lemma dispatch_typing_entries (st : State) (e : Event) :
  Forall (fun m => id m = str "typing" ->
                   text m = JString (str "AI is typing...") /\ type m = creator)
         (messages st) ->
  Forall (fun m => id m = str "typing" ->
                   text m = JString (str "AI is typing...") /\ type m = creator)
         (messages (step st e)).
Proof.
  intros Inv.
  assert (D : forall n m, id m = toString n -> id m = str "typing" -> False).
  { intros n m E T. rewrite E in T. apply JS_eqb_eq in T.
    rewrite toString_not_typing in T. discriminate. }
  assert (K : Forall (fun m => id m = str "typing" ->
                   text m = JString (str "AI is typing...") /\ type m = creator)
                (filter not_typing (messages st))).
  { apply Forall_forall. intros m H. apply filter_In in H.
    rewrite Forall_forall in Inv. apply Inv, H. }
  destruct e as [value|clock|outcome clock]; unfold dispatch.
  - destruct (input_disabled st); exact Inv.
  - destruct (is_empty (trim (inputValue st))) eqn:E.
    + unfold handleSendMessage. rewrite E. exact Inv.
    + rewrite submit_nonblank
        by (intros A; apply is_empty_spec in A; congruence).
      simpl. apply Forall_app. split; [exact Inv|].
      constructor; [|constructor; [|constructor]].
      * intros T. exfalso. revert T. apply (D (id_now clock)). reflexivity.
      * intros _. split; reflexivity.
  - destruct (settled_messages outcome clock st) as [E | [r E]]; rewrite E.
    + exact K.
    + apply Forall_app. split; [exact K|]. constructor; [|constructor].
      intros T. exfalso. revert T. apply (D (reply_now clock + 1)). reflexivity.
Qed.

(** C9: one event either appends messages to the end of the transcript
    or filters out the entries with the id [typing] and appends; so over
    every sequence of events the entries with another id stay, unchanged
    and in their order, at the front of those of the later transcript;
    and from the first render on, the entries with the id [typing] are
    placeholders, nothing else. *)
Theorem only_placeholders_leave_the_transcript
  (es : list Event) (st : State) (t0 : N) :
  (forall s e, exists added,
      messages (step s e) = messages s ++ added
      \/ messages (step s e) = filter not_typing (messages s) ++ added)
  /\ (exists added,
       filter not_typing (messages (runs es st))
       = filter not_typing (messages st) ++ added)
  /\ Forall (fun m => id m = str "typing" ->
                      text m = JString (str "AI is typing...")
                      /\ type m = creator)
            (messages (runs es (initial t0))).
Proof.
  split; [exact dispatch_messages|]. unfold run. split.
  - revert st. induction es as [|e es IH]; intros st; simpl.
    + exists []. rewrite app_nil_r. reflexivity.
    + destruct (IH (step st e)) as [tl E].
      destruct (dispatch_keeps_messages st e) as [hd F].
      exists (hd ++ tl). rewrite E, F, app_assoc. reflexivity.
  - assert (G : forall s,
               Forall (fun m => id m = str "typing" ->
                         text m = JString (str "AI is typing...")
                         /\ type m = creator) (messages s) ->
               Forall (fun m => id m = str "typing" ->
                         text m = JString (str "AI is typing...")
                         /\ type m = creator)
                      (messages (fold_left step es s))).
    { induction es as [|e es IH]; intros s Inv; simpl; [exact Inv|].
      apply IH, dispatch_typing_entries, Inv. }
    apply G. simpl. constructor; [|constructor]. discriminate.
Qed.

(** While the flag is set the input is empty: submitting clears it and a
    disabled input takes no edit. *)
Lemma dispatch_loading_input (st : State) (e : Event) :
  (isLoading st = true -> inputValue st = []) ->
  isLoading (step st e) = true -> inputValue (step st e) = [].
Proof.
  intros Inv. destruct e as [value|clock|outcome clock]; simpl.
  - unfold input_disabled. destruct (isLoading st) eqn:L; simpl.
    + intros _. auto.
    + rewrite L. discriminate.
  - unfold handleSendMessage.
    destruct (is_empty (trim (inputValue st))); simpl; auto.
  - unfold handleSendMessage_settled. simpl. discriminate.
Qed.

Lemma run_loading_input (es : list Event) (st : State) :
  (isLoading st = true -> inputValue st = []) ->
  isLoading (runs es st) = true -> inputValue (runs es st) = [].
Proof.
  revert st. induction es as [|e es IH]; intros st Inv; simpl; [exact Inv|].
  apply IH. apply dispatch_loading_input. exact Inv.
Qed.

(** C2: in every state the component reaches from its first render,
    while a submission is in flight (the flag is set) a further
    submission is a no-op, whatever input is attempted before it: the
    button is disabled, the handler returns the state it was called in,
    and so does an edit followed by a submission, so that the length of
    the transcript is unchanged and no second request is issued. *)
Theorem submit_while_loading_is_ignored
  (es : list Event) (t0 : N) (value : jsstring) (clock : SubmitClock) :
  let st := runs es (initial t0) in
  isLoading st = true ->
  button_disabled st = true
  /\ submit clock st = st
  /\ runs [Change value; Submit clock] st = st
  /\ List.length (messages (runs [Change value; Submit clock] st))
     = List.length (messages st)
  /\ requests (runs [Change value; Submit clock] st) = requests st.
Proof.
  intros st L.
  assert (I : inputValue st = []).
  { apply run_loading_input; [discriminate | exact L]. }
  assert (S : submit clock st = st).
  { unfold handleSendMessage. rewrite I. reflexivity. }
  assert (R : runs [Change value; Submit clock] st = st).
  { simpl. unfold input_disabled. rewrite L. exact S. }
  rewrite R. repeat split.
  - unfold button_disabled. rewrite L. reflexivity.
  - exact S.
Qed.

End Facts.

(** ** The other revisions *)

Section Revisions.

Variable number_truthy : jsstring -> bool.
Variable JSON_stringify : JSON -> jsstring.
Variable ToString : JSON -> Result jsstring.

(** Every revision returns at once on a blank input. *)
Lemma part000_returns_on_blank (clock : SubmitClock) (st : State) :
  trim (inputValue st) = [] ->
  Part000.handleSendMessage JSON_stringify clock st = st.
Proof. intros H. unfold Part000.handleSendMessage. rewrite H. reflexivity. Qed.

Lemma part001_returns_on_blank (clock : SubmitClock) (st : State) :
  trim (inputValue st) = [] ->
  Part001.handleSendMessage JSON_stringify clock st = st.
Proof. intros H. unfold Part001.handleSendMessage. rewrite H. reflexivity. Qed.

(** [part_000] does not look at the status: on every response, a 500 as
    well, the transcript stays as it is and the toast is [Message sent]. *)
Lemma part000_any_response_is_a_success (response : Response.t) (st : State) :
  let st' := Part000.handleSendMessage_settled (Resolved response) st in
  messages st' = messages st
  /\ toasts st' =
     toasts st ++
     [ {| title := str "Message sent";
          description := str "Your message has been processed successfully.";
          variant := default |} ].
Proof. split; reflexivity. Qed.

(** The catch clause of [part_001] keeps a reply that was queued before
    the throw: its id is a numeral. *)
Lemma part001_reply_stays
  (l : list Message) (n : N) (v : JSON) (k : MessageType) (t : N) :
  filter not_typing
    (filter not_typing l ++
     [ {| id := toString n; text := v; type := k; timestamp := t |} ])
  = filter not_typing l ++
    [ {| id := toString n; text := v; type := k; timestamp := t |} ].
Proof.
  rewrite filter_app, filter_not_typing_idem. simpl.
  unfold not_typing. simpl. rewrite toString_not_typing. reflexivity.
Qed.

(** The transcript of [part_001] once a body has parsed: the reply is
    appended whether or not the toast can quote it. *)
Lemma part001_messages_with_data
  (response : Response.t) (content : jsstring) (responseData : JSON)
  (clock : ReplyClock) (st : State) :
  Response.ok response = true ->
  Response.body response = Some content ->
  JSON_parse content = Some responseData ->
  messages
    (Part001.handleSendMessage_settled number_truthy ToString
       (Resolved response) clock st)
  = filter not_typing (messages st) ++
    [ {| id := toString (reply_now clock + 1);
         text := Part001.actualMessage number_truthy responseData;
         type := creator;
         timestamp := reply_at clock |} ].
Proof.
  intros Hok Hb Hp. unfold Part001.handleSendMessage_settled, response_json.
  rewrite Hok, Hb, Hp. simpl.
  destruct (ToString (Part001.actualMessage number_truthy responseData));
    simpl; [reflexivity | apply part001_reply_stays].
Qed.

(** [part_001] agrees with [Index.tsx] on the body with the member
    [message], on statuses that are not 2xx and on rejected requests. *)
Lemma part001_shows_hello
  (status : N) (clock : ReplyClock) (st : State) :
  200 <= status <= 299 ->
  messages
    (Part001.handleSendMessage_settled number_truthy ToString
       (Resolved {| Response.status := status;
                    Response.body := Some body_message_hello |})
       clock st)
  = filter not_typing (messages st) ++
    [ {| id := toString (reply_now clock + 1);
         text := JString (str "Hello");
         type := creator;
         timestamp := reply_at clock |} ].
Proof.
  intros [Hlo Hhi].
  apply (part001_messages_with_data
           {| Response.status := status;
              Response.body := Some body_message_hello |}
           body_message_hello
           (JObject [(str "message", JString (str "Hello"))]));
    [|reflexivity|reflexivity].
  unfold Response.ok. simpl.
  apply N.leb_le in Hlo, Hhi. rewrite Hlo, Hhi. reflexivity.
Qed.

Lemma part001_failures_agree
  (response : Response.t) (clock : ReplyClock) (st : State) :
  Response.ok response = false ->
  Part001.handleSendMessage_settled number_truthy ToString
    (Resolved response) clock st
  = handleSendMessage_settled number_truthy JSON_stringify
      (Resolved response) clock st
  /\ Part001.handleSendMessage_settled number_truthy ToString Rejected clock st
     = handleSendMessage_settled number_truthy JSON_stringify Rejected clock st.
Proof.
  intros H.
  unfold Part001.handleSendMessage_settled, handleSendMessage_settled.
  rewrite H. split; reflexivity.
Qed.

(** [part_001] has no catch clause of its own around [json()]: a body
    that is not JSON ends in the [Connection Error]. *)
Lemma part001_text_body_fails (clock : ReplyClock) (st : State) :
  Part001.handleSendMessage_settled number_truthy ToString
    (Resolved {| Response.status := 200;
                 Response.body := Some body_plain_text |})
    clock st
  = setIsLoading false (Part001.connectionError st).
Proof. reflexivity. Qed.

Lemma part001_drops_placeholders
  (outcome : Outcome) (clock : ReplyClock) (st : State) :
  Forall (fun m => id m <> str "typing")
         (messages
            (Part001.handleSendMessage_settled number_truthy ToString
               outcome clock st)).
Proof.
  assert (K : Forall (fun m => id m <> str "typing")
                     (filter not_typing (messages st))).
  { apply Forall_forall. intros m. apply filter_not_typing_free. }
  unfold Part001.handleSendMessage_settled.
  destruct outcome as [|response]; simpl; [exact K|].
  destruct (Response.ok response); simpl; [|exact K].
  destruct (fst (response_json response false)) as [responseData|];
    simpl; [|exact K].
  assert (R : Forall (fun m => id m <> str "typing")
                (filter not_typing (messages st) ++
                 [ {| id := toString (reply_now clock + 1);
                      text := Part001.actualMessage number_truthy responseData;
                      type := creator;
                      timestamp := reply_at clock |} ])).
  { apply Forall_app. split; [exact K|]. constructor; [|constructor]. simpl.
    intros A. apply JS_eqb_eq in A. rewrite toString_not_typing in A.
    discriminate. }
  destruct (ToString (Part001.actualMessage number_truthy responseData));
    simpl; [exact R|].
  rewrite part001_reply_stays. exact R.
Qed.

(** C6: in the two revisions that test [response.ok], [Index.tsx] and
    [part_001], a response whose status is not 2xx (500 is one) ends the
    same way: the placeholders are filtered out of the transcript, so
    that no entry with the id [typing] is left, nothing is appended to
    it, and exactly one toast is shown, a destructive one that carries
    the status. *)
Theorem http_error_where_the_status_is_tested
  (response : Response.t) (clock : ReplyClock) (st : State) :
  Response.ok response = false ->
  let index :=
    handleSendMessage_settled number_truthy JSON_stringify
      (Resolved response) clock st in
  let part001 :=
    Part001.handleSendMessage_settled number_truthy ToString
      (Resolved response) clock st in
  part001 = index
  /\ messages index = filter not_typing (messages st)
  /\ Forall (fun m => id m <> str "typing") (messages index)
  /\ toasts index =
     toasts st ++
     [ {| title := str "Webhook Error";
          description :=
            str "Server responded with status " ++
            toString (Response.status response);
          variant := destructive |} ]
  /\ isLoading index = false.
Proof.
  intros H. cbv zeta.
  destruct (part001_failures_agree response clock st H) as [Same _].
  destruct (http_error_removes_placeholder_and_notifies_once
              number_truthy JSON_stringify response clock st H)
    as (M & F & T & L).
  repeat split; assumption.
Qed.


End Revisions.

(** ** Instances *)

Example parse_message_hello :
  JSON_parse body_message_hello
  = Some (JObject [(str "message", JString (str "Hello"))]).
Proof. vm_compute. reflexivity. Qed.

Example parse_plain_text : JSON_parse body_plain_text = None.
Proof. vm_compute. reflexivity. Qed.

(** [hi] typed between spaces and submitted, the request answered 200
    with the member [message] of value [Hello]: the greeting, the trimmed
    input, the reply. *)
Example hi_then_hello :
  map (fun m => (text m, type m))
    (messages
       (run digits_truthy stringify_as_written
          [ Change (str "  hi ");
            Submit noon;
            Settle (Resolved {| Response.status := 200;
                                Response.body := Some body_message_hello |})
                   later ]
          (initial 0)))
  = [ (JString (str "Hey there! What can I help you with today?"), creator);
      (JString (str "hi"), customer);
      (JString (str "Hello"), creator) ].
Proof. vm_compute. reflexivity. Qed.

(** The same submission answered 200 with a body that is not JSON, with
    the JSON text [null], and with no body at all. *)
Example hi_then_other_bodies :
  map (fun m => (text m, type m))
    (messages
       (run digits_truthy stringify_as_written
          [ Change (str "  hi "); Submit noon;
            Settle (Resolved {| Response.status := 200;
                                Response.body := Some body_plain_text |})
                   later ]
          (initial 0)))
  = [ (JString (str "Hey there! What can I help you with today?"), creator);
      (JString (str "hi"), customer) ]
  /\ map (fun m => (text m, type m))
       (messages
          (run digits_truthy stringify_as_written
             [ Change (str "  hi "); Submit noon;
               Settle (Resolved {| Response.status := 200;
                                   Response.body := Some (str "null") |})
                      later ]
             (initial 0)))
     = [ (JString (str "Hey there! What can I help you with today?"), creator);
         (JString (str "hi"), customer) ]
  /\ map (fun m => (text m, type m))
       (messages
          (run digits_truthy stringify_as_written
             [ Change (str "  hi "); Submit noon;
               Settle (Resolved {| Response.status := 204;
                                   Response.body := None |})
                      later ]
             (initial 0)))
     = [ (JString (str "Hey there! What can I help you with today?"), creator);
         (JString (str "hi"), customer);
         (JString (str "No response received"), creator) ].
Proof. repeat split; vm_compute; reflexivity. Qed.

(** The handler has no test of the flag of its own: called in a state
    with the flag set and text in the input, it appends two messages and
    sends a request. *)
Lemma busy_submit_is_not_ignored :
  isLoading busy = true
  /\ List.length (messages (handleSendMessage stringify_as_written noon busy))
     <> List.length (messages busy)
  /\ requests (handleSendMessage stringify_as_written noon busy)
     <> requests busy.
Proof.
  repeat split; vm_compute; discriminate.
Qed.

(** That state is none the component reaches: with the flag set, the
    input of a reached state is empty. *)
Lemma busy_is_not_reached (es : list Event) (t0 : N) :
  run digits_truthy stringify_as_written es (initial t0) <> busy.
Proof.
  intros E.
  assert (I : inputValue
                (run digits_truthy stringify_as_written es (initial t0)) = []).
  { apply run_loading_input; [discriminate | rewrite E; reflexivity]. }
  rewrite E in I. discriminate.
Qed.

Lemma blank_input_is_ignored_witness :
  trim (inputValue typed_blank) = []
  /\ handleSendMessage stringify_as_written noon typed_blank = typed_blank.
Proof.
  split; [reflexivity|].
  apply (blank_input_is_ignored stringify_as_written noon typed_blank).
  reflexivity.
Defined.

Lemma message_hello_is_shown_witness :
  200 <= 200 <= 299
  /\ messages
       (handleSendMessage_settled digits_truthy stringify_as_written
          (Resolved {| Response.status := 200;
                       Response.body := Some body_message_hello |})
          later (handleSendMessage stringify_as_written noon typed_hi))
     = filter not_typing
         (messages (handleSendMessage stringify_as_written noon typed_hi)) ++
       [ {| id := toString (reply_now later + 1);
            text := JString (str "Hello");
            type := creator;
            timestamp := reply_at later |} ].
Proof.
  split; [lia|].
  apply (message_hello_is_shown digits_truthy stringify_as_written 200 later
           (handleSendMessage stringify_as_written noon typed_hi)).
  lia.
Defined.

Lemma http_error_witness :
  Response.ok {| Response.status := 500; Response.body := Some (str "oops") |}
  = false
  /\ Part001.handleSendMessage_settled digits_truthy to_string_as_written
       (Resolved {| Response.status := 500;
                    Response.body := Some (str "oops") |})
       later (handleSendMessage stringify_as_written noon typed_hi)
     = handleSendMessage_settled digits_truthy stringify_as_written
         (Resolved {| Response.status := 500;
                      Response.body := Some (str "oops") |})
         later (handleSendMessage stringify_as_written noon typed_hi).
Proof.
  split; [reflexivity|].
  apply (http_error_where_the_status_is_tested
           digits_truthy stringify_as_written to_string_as_written
           {| Response.status := 500; Response.body := Some (str "oops") |}
           later (handleSendMessage stringify_as_written noon typed_hi)).
  reflexivity.
Defined.

(** [part_000] on an HTTP 500: the message [hi] was shown and sent, the
    response has the status 500, and the one toast is the default
    [Message sent]: no failure notification is shown. *)
Lemma part000_http_500_is_reported_as_sent :
  Response.ok {| Response.status := 500; Response.body := Some (str "oops") |}
  = false
  /\ toasts
       (Part000.handleSendMessage_settled
          (Resolved {| Response.status := 500;
                       Response.body := Some (str "oops") |})
          (Part000.handleSendMessage stringify_as_written noon typed_hi))
     = [ {| title := str "Message sent";
            description := str "Your message has been processed successfully.";
            variant := default |} ]
  /\ filter (fun t => match variant t with
                      | destructive => true
                      | default => false
                      end)
       (toasts
          (Part000.handleSendMessage_settled
             (Resolved {| Response.status := 500;
                          Response.body := Some (str "oops") |})
             (Part000.handleSendMessage stringify_as_written noon typed_hi)))
     = [].
Proof. repeat split. Qed.

Lemma network_error_witness :
  Response.ok {| Response.status := 500; Response.body := None |} = false
  /\ messages
       (handleSendMessage_settled digits_truthy stringify_as_written
          Rejected later (handleSendMessage stringify_as_written noon typed_hi))
     = messages
         (handleSendMessage_settled digits_truthy stringify_as_written
            (Resolved {| Response.status := 500; Response.body := None |})
            later (handleSendMessage stringify_as_written noon typed_hi)).
Proof.
  split; [reflexivity|].
  apply (network_error_behaves_as_http_error
           digits_truthy stringify_as_written
           {| Response.status := 500; Response.body := None |}
           later (handleSendMessage stringify_as_written noon typed_hi)).
  reflexivity.
Defined.

Lemma raw_text_fallback_witness :
  Response.ok {| Response.status := 200; Response.body := Some body_plain_text |}
  = true
  /\ JSON_parse body_plain_text = None
  /\ readResponseMessage digits_truthy stringify_as_written
       {| Response.status := 200; Response.body := Some body_plain_text |}
     = Throw TypeErrorExn.
Proof.
  split; [reflexivity|]. split; [reflexivity|].
  apply (raw_text_fallback_throws digits_truthy stringify_as_written
           {| Response.status := 200; Response.body := Some body_plain_text |}
           body_plain_text later typed_hi);
    reflexivity.
Defined.

Lemma text_reply_witness :
  trim (inputValue typed_hi) <> []
  /\ messages
       (handleSendMessage_settled digits_truthy stringify_as_written
          (Resolved {| Response.status := 200;
                       Response.body := Some body_plain_text |})
          later (handleSendMessage stringify_as_written noon typed_hi))
     = filter not_typing (messages typed_hi) ++
       [ {| id := toString (id_now noon);
            text := JString (trim (inputValue typed_hi));
            type := customer;
            timestamp := sent_at noon |} ].
Proof.
  split; [discriminate|].
  apply (text_reply_leaves_no_remote_message digits_truthy stringify_as_written
           noon later typed_hi).
  discriminate.
Defined.

Lemma submit_while_loading_witness :
  isLoading
    (run digits_truthy stringify_as_written
       [Change (str "hi"); Submit noon] (initial 0)) = true
  /\ run digits_truthy stringify_as_written
       [Change (str "again"); Submit noon]
       (run digits_truthy stringify_as_written
          [Change (str "hi"); Submit noon] (initial 0))
     = run digits_truthy stringify_as_written
         [Change (str "hi"); Submit noon] (initial 0).
Proof.
  split; [reflexivity|].
  apply (submit_while_loading_is_ignored digits_truthy stringify_as_written
           [Change (str "hi"); Submit noon] 0 (str "again") noon).
  reflexivity.
Defined.

(** * More of the component *)

(** ** Trimming *)

Lemma trim_start_split (s : jsstring) :
  exists pre, s = pre ++ trim_start s /\ forallb is_white_space pre = true.
Proof.
  induction s as [|c s [pre [E W]]]; simpl.
  - exists []. split; reflexivity.
  - destruct (is_white_space c) eqn:Wc.
    + exists (c :: pre). simpl. rewrite Wc, W. split; [f_equal; exact E | reflexivity].
    + exists []. split; reflexivity.
Qed.

Lemma trim_start_head (s : jsstring) (c : N) (r : jsstring) :
  trim_start s = c :: r -> is_white_space c = false.
Proof.
  induction s as [|x s IH]; simpl; [discriminate|].
  destruct (is_white_space x) eqn:Wx; [exact IH|].
  intros E; injection E as <- _. exact Wx.
Qed.

Lemma trim_end_split (s : jsstring) :
  exists post, s = trim_end s ++ post /\ forallb is_white_space post = true.
Proof.
  unfold trim_end. destruct (trim_start_split (rev s)) as [pre [E W]].
  exists (rev pre). split.
  - rewrite <- rev_app_distr, <- E, rev_involutive. reflexivity.
  - rewrite forallb_forall in *. intros x H. apply W, in_rev, H.
Qed.

Lemma trim_end_last (s front : jsstring) (c : N) :
  trim_end s = front ++ [c] -> is_white_space c = false.
Proof.
  unfold trim_end. intros E. apply (f_equal (@rev N)) in E.
  rewrite rev_involutive, rev_app_distr in E. simpl in E.
  exact (trim_start_head _ _ _ E).
Qed.

(** [s.trim()] is [s] without the whitespace around it: what is cut off
    at either end is whitespace, and what is left neither starts nor ends
    with whitespace. *)
Lemma trim_spec (s : jsstring) :
  (exists pre post,
      s = pre ++ trim s ++ post
      /\ forallb is_white_space pre = true
      /\ forallb is_white_space post = true)
  /\ (forall c r, trim s = c :: r -> is_white_space c = false)
  /\ (forall front c, trim s = front ++ [c] -> is_white_space c = false).
Proof.
  unfold trim. split; [|split].
  - destruct (trim_start_split s) as [pre [E W]].
    destruct (trim_end_split (trim_start s)) as [post [F V]].
    exists pre, post. split; [|split; assumption].
    rewrite <- F. exact E.
  - intros c r E.
    destruct (trim_end_split (trim_start s)) as [post [F V]].
    rewrite E in F. simpl in F. exact (trim_start_head _ _ _ F).
  - intros front c. apply trim_end_last.
Qed.

Lemma is_empty_trim (s : jsstring) :
  is_empty (trim s) = forallb is_white_space s.
Proof.
  destruct (forallb is_white_space s) eqn:W.
  - apply trim_nil_iff_whitespace in W. rewrite W. reflexivity.
  - destruct (is_empty (trim s)) eqn:E; [|reflexivity].
    apply is_empty_spec, trim_nil_iff_whitespace in E. congruence.
Qed.

(** ** Ids *)

Lemma str_inj (a b : string) : str a = str b -> a = b.
Proof.
  unfold str. intros E.
  rewrite <- (string_of_list_ascii_of_string a),
          <- (string_of_list_ascii_of_string b).
  f_equal. revert E.
  generalize (list_ascii_of_string a) (list_ascii_of_string b).
  induction l as [|x l IH]; intros [|y l']; simpl; try discriminate;
    [reflexivity|].
  intros E. injection E as E1 E2. f_equal; [|apply IH, E2].
  rewrite <- (ascii_N_embedding x), <- (ascii_N_embedding y), E1. reflexivity.
Qed.

Lemma to_uint_not_nil (n : N) : N.to_uint n <> Decimal.Nil.
Proof.
  intros E. pose proof (DecimalN.Unsigned.of_to n) as R. rewrite E in R.
  simpl in R. subst n. discriminate.
Qed.

(** Two numbers with the same decimal digits are the same number. *)
Lemma toString_inj (n n' : N) : toString n = toString n' -> n = n'.
Proof.
  unfold toString. intros E. apply str_inj in E.
  apply DecimalN.Unsigned.to_uint_inj.
  pose proof (NilZero.usu (N.to_uint n) (to_uint_not_nil n)) as A.
  pose proof (NilZero.usu (N.to_uint n') (to_uint_not_nil n')) as B.
  rewrite E in A. rewrite A in B. injection B as B. exact B.
Qed.

(** ** Reachable states *)

Lemma forallb_filter_id {A : Type} (f : A -> bool) (l : list A) :
  forallb f l = true -> filter f l = l.
Proof.
  induction l as [|x l IH]; simpl; [reflexivity|].
  intros H. apply andb_true_iff in H. destruct H as [Hx Hl].
  rewrite Hx, IH by exact Hl. reflexivity.
Qed.

Lemma forallb_filter {A : Type} (f : A -> bool) (l : list A) :
  forallb f (filter f l) = true.
Proof.
  apply forallb_forall. intros x H. apply filter_In in H. apply H.
Qed.

Lemma not_typing_numeral (n : N) (v : JSON) (k : MessageType) (t : N) :
  not_typing {| id := toString n; text := v; type := k; timestamp := t |} = true.
Proof. unfold not_typing. simpl. rewrite toString_not_typing. reflexivity. Qed.

Section More.

Variable number_truthy : jsstring -> bool.
Variable JSON_stringify : JSON -> jsstring.

Local Abbreviation submit := (handleSendMessage JSON_stringify).
Local Abbreviation settled := (handleSendMessage_settled number_truthy JSON_stringify).
Local Abbreviation readMessage := (readResponseMessage number_truthy JSON_stringify).
Local Abbreviation orFallback := (orNoResponse number_truthy).
Local Abbreviation step := (dispatch number_truthy JSON_stringify).
Local Abbreviation runs := (run number_truthy JSON_stringify).

(** What settling leaves alone, and the flag it clears. *)
Lemma settled_frame (outcome : Outcome) (clock : ReplyClock) (st : State) :
  isLoading (settled outcome clock st) = false
  /\ inputValue (settled outcome clock st) = inputValue st
  /\ requests (settled outcome clock st) = requests st.
Proof.
  unfold handleSendMessage_settled.
  destruct outcome as [|response]; simpl; [auto|].
  destruct (Response.ok response); simpl; [|auto].
  destruct (readMessage response); simpl; auto.
Qed.

Lemma submit_when_waiting (clock : SubmitClock) (st : State) :
  inputValue st = [] -> submit clock st = st.
Proof. intros E. unfold handleSendMessage. rewrite E. reflexivity. Qed.

Lemma dispatch_waiting_or_idle (st : State) (e : Event) :
  waiting_or_idle st -> waiting_or_idle (step st e).
Proof.
  unfold waiting_or_idle. intros Inv.
  destruct e as [value|clock|outcome clock]; unfold dispatch.
  - unfold input_disabled. destruct (isLoading st) eqn:L; [rewrite L; exact Inv|].
    simpl. rewrite L. exact Inv.
  - destruct (isLoading st) eqn:L.
    + rewrite submit_when_waiting by apply Inv. rewrite L. exact Inv.
    + destruct (is_empty (trim (inputValue st))) eqn:E.
      * unfold handleSendMessage. rewrite E, L. exact Inv.
      * rewrite submit_nonblank
          by (intros A; apply is_empty_spec in A; congruence).
        simpl. split; [reflexivity|].
        exists (messages st ++
                [ {| id := toString (id_now clock);
                     text := JString (trim (inputValue st));
                     type := customer;
                     timestamp := sent_at clock |} ]),
               (typing_at clock).
        split.
        -- rewrite <- app_assoc. reflexivity.
        -- rewrite forallb_app, Inv. simpl.
           rewrite not_typing_numeral. reflexivity.
  - destruct (settled_frame outcome clock st) as [L _]. rewrite L.
    destruct (settled_messages number_truthy JSON_stringify outcome clock st)
      as [E | [r E]]; rewrite E.
    + apply forallb_filter.
    + rewrite forallb_app, forallb_filter. simpl.
      rewrite not_typing_numeral. reflexivity.
Qed.

Lemma run_waiting_or_idle (es : list Event) (st : State) :
  waiting_or_idle st -> waiting_or_idle (runs es st).
Proof.
  unfold run. revert st. induction es as [|e es IH]; intros st Inv; simpl.
  - exact Inv.
  - apply IH, dispatch_waiting_or_idle, Inv.
Qed.

Lemma initial_waiting_or_idle (t0 : N) : waiting_or_idle (initial t0).
Proof. reflexivity. Qed.

Lemma reachable_waiting_or_idle (es : list Event) (t0 : N) :
  waiting_or_idle (runs es (initial t0)).
Proof.
  exact (run_waiting_or_idle es (initial t0) (initial_waiting_or_idle t0)).
Qed.

(** X1: from the first render on, the transcript holds exactly one
    placeholder, as its last entry, while a request is in flight (and the
    input is then empty), and no placeholder otherwise. *)
Theorem one_placeholder_while_loading (es : list Event) (t0 : N) :
  let st := runs es (initial t0) in
  if isLoading st then
    inputValue st = []
    /\ exists front t,
         messages st = front ++ [placeholder t]
         /\ forallb not_typing front = true
  else forallb not_typing (messages st) = true.
Proof.
  exact (run_waiting_or_idle es (initial t0) (initial_waiting_or_idle t0)).
Qed.


(** *** Requests and messages *)

Lemma filter_customer_front (front : list Message) (t : N) :
  filter is_customer (front ++ [placeholder t]) = filter is_customer front.
Proof. rewrite filter_app. simpl. apply app_nil_r. Qed.

Lemma dispatch_requests (st : State) (e : Event) :
  waiting_or_idle st ->
  List.length (requests st) = List.length (filter is_customer (messages st)) ->
  List.length (requests (step st e))
  = List.length (filter is_customer (messages (step st e))).
Proof.
  intros Inv Cnt. destruct e as [value|clock|outcome clock]; unfold dispatch.
  - destruct (input_disabled st); exact Cnt.
  - destruct (is_empty (trim (inputValue st))) eqn:E.
    + unfold handleSendMessage. rewrite E. exact Cnt.
    + rewrite submit_nonblank
        by (intros A; apply is_empty_spec in A; congruence).
      simpl. rewrite filter_app, !length_app, Cnt. reflexivity.
  - destruct (settled_frame outcome clock st) as (_ & _ & R). rewrite R, Cnt.
    assert (K : filter is_customer (filter not_typing (messages st))
                = filter is_customer (messages st)).
    { unfold waiting_or_idle in Inv. destruct (isLoading st).
      - destruct Inv as (_ & front & t & M & F). rewrite M.
        rewrite filter_app. simpl. rewrite app_nil_r.
        rewrite (forallb_filter_id _ _ F), filter_customer_front. reflexivity.
      - rewrite (forallb_filter_id _ _ Inv). reflexivity. }
    destruct (settled_messages number_truthy JSON_stringify outcome clock st)
      as [M | [r M]]; rewrite M.
    + rewrite K. reflexivity.
    + rewrite filter_app, K. simpl. rewrite app_nil_r. reflexivity.
Qed.

(** X2: from the first render on, as many requests have been sent as the
    transcript holds messages of type [customer]: a submission that shows
    a message sends one request, and nothing else sends one (a settled
    request is never sent again) or drops a message of the user. *)
Theorem one_request_per_customer_message (es : list Event) (t0 : N) :
  List.length (requests (runs es (initial t0)))
  = List.length (filter is_customer (messages (runs es (initial t0)))).
Proof.
  assert (G : forall st,
             waiting_or_idle st ->
             List.length (requests st)
             = List.length (filter is_customer (messages st)) ->
             List.length (requests (runs es st))
             = List.length (filter is_customer (messages (runs es st)))).
  { unfold run. induction es as [|e es IH]; intros st Inv Cnt; simpl.
    - exact Cnt.
    - apply IH.
      + apply dispatch_waiting_or_idle, Inv.
      + apply dispatch_requests; assumption. }
  apply G; reflexivity.
Qed.

(** X3: a submission with text shows what it sends: the appended
    [customer] message has the trimmed input as its text, the request
    carries that same text as its member [message], the input is cleared
    and the flag set.  The trimmed input is the input without the
    whitespace around it, and is not empty. *)
Theorem shown_text_is_sent_text (clock : SubmitClock) (st : State) :
  trim (inputValue st) <> [] ->
  let st' := submit clock st in
  let shown := trim (inputValue st) in
  (exists m t r,
      messages st' = messages st ++ [m; placeholder t]
      /\ requests st' = requests st ++ [r]
      /\ type m = customer
      /\ text m = JString shown
      /\ Request.body r = JSON_stringify (JObject [(str "message", text m)]))
  /\ inputValue st' = []
  /\ isLoading st' = true
  /\ (exists pre post,
        inputValue st = pre ++ shown ++ post
        /\ forallb is_white_space pre = true
        /\ forallb is_white_space post = true)
  /\ (exists c r, shown = c :: r /\ is_white_space c = false)
  /\ (exists front c, shown = front ++ [c] /\ is_white_space c = false).
Proof.
  intros H. simpl. rewrite (submit_nonblank JSON_stringify clock st H). simpl.
  destruct (trim_spec (inputValue st)) as (Cut & Head & Last).
  split; [|split; [reflexivity|split; [reflexivity|split; [exact Cut|]]]].
  - do 3 eexists. repeat split.
  - split.
    + destruct (trim (inputValue st)) as [|c r] eqn:E; [contradiction|].
      exists c, r. split; [reflexivity | exact (Head c r eq_refl)].
    + destruct (exists_last H) as (front & c & E).
      exists front, c. split; [exact E | exact (Last front c E)].
Qed.

(** *** The button *)

(** X4: the Send button is disabled exactly when a request is in flight
    or the input has no character that is not whitespace. *)
Theorem send_disabled_iff_loading_or_blank (st : State) :
  send_disabled (render st)
  = isLoading st
    || negb (existsb (fun c => negb (is_white_space c)) (inputValue st)).
Proof.
  simpl. unfold button_disabled. rewrite is_empty_trim. f_equal.
  induction (inputValue st) as [|c s IH]; simpl; [reflexivity|].
  rewrite IH. destruct (is_white_space c); reflexivity.
Qed.

(** X5: from the first render on, the button tells what a submission
    does: when the button is disabled a submission leaves the state as it
    is, and when it is enabled a submission changes the state. *)
Theorem button_tells_what_submit_does
  (es : list Event) (t0 : N) (clock : SubmitClock) :
  let st := runs es (initial t0) in
  if send_disabled (render st) then submit clock st = st
  else submit clock st <> st.
Proof.
  simpl. unfold button_disabled.
  pose proof (reachable_waiting_or_idle es t0) as Inv.
  unfold waiting_or_idle in Inv.
  destruct (isLoading (runs es (initial t0))) eqn:L; simpl.
  - apply submit_when_waiting, Inv.
  - destruct (is_empty (trim (inputValue (runs es (initial t0))))) eqn:E.
    + unfold handleSendMessage. rewrite E. reflexivity.
    + intros S. apply (f_equal isLoading) in S. rewrite L in S.
      rewrite submit_nonblank in S
        by (intros A; apply is_empty_spec in A; congruence).
      discriminate.
Qed.

(** *** The rows *)

Lemma render_not_typing (m : Message) :
  not_typing m = true ->
  pulsing (renderMessage m) = false
  /\ time (renderMessage m)
     = Some {| time_class :=
                 match type m with
                 | customer => time_customer
                 | creator => time_creator
                 end;
               time_value := timestamp m |}.
Proof.
  intros H. unfold pulsing, renderMessage. simpl. rewrite H.
  split; [|reflexivity].
  unfold not_typing in H. apply negb_true_iff in H. rewrite H.
  destruct (type m); reflexivity.
Qed.

Lemma render_front (front : list Message) :
  forallb not_typing front = true ->
  filter pulsing (map renderMessage front) = []
  /\ Forall (fun r => pulsing r
                      = match time r with None => true | Some _ => false end)
            (map renderMessage front).
Proof.
  induction front as [|m front IH]; simpl; [split; [reflexivity|constructor]|].
  intros H. apply andb_true_iff in H. destruct H as [Hm Hf].
  destruct (render_not_typing m Hm) as [P T]. destruct (IH Hf) as [A B].
  rewrite P. split; [exact A|]. constructor; [|exact B].
  rewrite P, T. reflexivity.
Qed.

(** X6: from the first render on, the typing indicator is on screen
    exactly while a request is in flight: the rows hold one pulsing
    bubble when the flag is set and none when it is not, and the rows
    shown without a time are the pulsing ones. *)
Theorem typing_indicator_iff_loading (es : list Event) (t0 : N) :
  let st := runs es (initial t0) in
  List.length (filter pulsing (rows (render st)))
  = (if isLoading st then 1 else 0)%nat
  /\ Forall (fun r => pulsing r
                      = match time r with None => true | Some _ => false end)
            (rows (render st)).
Proof.
  simpl. pose proof (reachable_waiting_or_idle es t0) as Inv.
  unfold waiting_or_idle in Inv.
  destruct (isLoading (runs es (initial t0))).
  - destruct Inv as (_ & front & t & M & F). rewrite M, map_app, filter_app.
    destruct (render_front front F) as [A B]. rewrite A. simpl.
    split; [reflexivity|].
    apply Forall_app. split; [exact B|]. constructor; [|constructor].
    reflexivity.
  - destruct (render_front _ Inv) as [A B]. rewrite A. split; [reflexivity|exact B].
Qed.

(** *** Toasts *)

(** X7: a settled request shows exactly one toast and leaves the input
    and the request log as they are.  The toast is the default one
    exactly when a reply is appended, and that reply is of type [creator]
    with a truthy text (so never the empty string); it is the
    destructive one exactly when the transcript only loses its
    placeholders. *)
Theorem one_toast_per_settled_request
  (outcome : Outcome) (clock : ReplyClock) (st : State) :
  let st' := settled outcome clock st in
  (exists t,
      toasts st' = toasts st ++ [t]
      /\ ((variant t = default
           /\ exists m,
                messages st' = filter not_typing (messages st) ++ [m]
                /\ type m = creator
                /\ truthy number_truthy (text m) = true
                /\ text m <> JString [])
          \/ (variant t = destructive
              /\ messages st' = filter not_typing (messages st))))
  /\ inputValue st' = inputValue st
  /\ requests st' = requests st
  /\ isLoading st' = false.
Proof.
  simpl. split; [|destruct (settled_frame outcome clock st) as (A & B & C); auto].
  unfold handleSendMessage_settled.
  destruct outcome as [|response]; simpl.
  - eexists. split; [reflexivity|]. right. split; reflexivity.
  - destruct (Response.ok response); simpl.
    + destruct (readMessage response) as [m|e]; simpl.
      * eexists. split; [reflexivity|]. left. split; [reflexivity|].
        eexists. split; [reflexivity|]. simpl.
        split; [reflexivity|]. split.
        -- apply orNoResponse_truthy.
        -- apply reply_text_not_empty.
      * eexists. split; [reflexivity|]. right. split; reflexivity.
    + eexists. split; [reflexivity|]. right. split; reflexivity.
Qed.

Lemma dispatch_toasts (st : State) (e : Event) :
  List.length (toasts (step st e))
  = (List.length (toasts st) + if is_settle e then 1 else 0)%nat.
Proof.
  destruct e as [value|clock|outcome clock]; unfold dispatch; simpl.
  - destruct (input_disabled st); simpl; lia.
  - unfold handleSendMessage.
    destruct (is_empty (trim (inputValue st))); simpl; lia.
  - unfold handleSendMessage_settled.
    destruct outcome as [|response]; simpl; [rewrite length_app; reflexivity|].
    destruct (Response.ok response); simpl;
      [|rewrite length_app; reflexivity].
    destruct (readMessage response); simpl; rewrite length_app; reflexivity.
Qed.

(** X8: over every sequence of events, the toasts shown are as many as
    the requests that settled: editing and submitting show none. *)
Theorem toasts_count_settled_requests (es : list Event) (st : State) :
  List.length (toasts (runs es st))
  = (List.length (toasts st) + List.length (filter is_settle es))%nat.
Proof.
  unfold run. revert st. induction es as [|e es IH]; intros st; simpl.
  - lia.
  - rewrite IH, dispatch_toasts. destruct (is_settle e); simpl; lia.
Qed.

(** *** One round trip *)

(** The page is shown exactly when no text of the transcript is an
    object or an array that holds one. *)
Lemma display_shows (st : State) :
  forallb (fun m => valid_child (text m)) (messages st) = true ->
  display st = Some (render st).
Proof. intros H. unfold display. rewrite H. reflexivity. Qed.

Lemma display_is_blank (st : State) (m : Message) :
  In m (messages st) -> valid_child (text m) = false -> display st = None.
Proof.
  intros Hin Hbad. unfold display.
  destruct (forallb (fun m => valid_child (text m)) (messages st)) eqn:F;
    [|reflexivity].
  rewrite forallb_forall in F. rewrite (F m Hin) in Hbad. discriminate.
Qed.

(** X9: a submission with text, made on a page that shows, disables the
    input and the button and labels the button [Sending...]; once its
    request has settled, whichever way, and the page still shows (no
    reply text is an object), the input is enabled again and empty, the
    label is [Send], and the button stays disabled until something is
    typed. *)
Theorem round_trip_of_the_form
  (clock : SubmitClock) (outcome : Outcome) (reply : ReplyClock) (st : State) :
  trim (inputValue st) <> [] ->
  forallb (fun m => valid_child (text m)) (messages st) = true ->
  forallb (fun m => valid_child (text m))
          (messages (settled outcome reply (submit clock st))) = true ->
  exists sent back,
    display (submit clock st) = Some sent
    /\ display (settled outcome reply (submit clock st)) = Some back
    /\ (field_disabled sent = true
        /\ send_disabled sent = true
        /\ send_label sent = str "Sending..."
        /\ field_value sent = [])
    /\ (field_disabled back = false
        /\ send_disabled back = true
        /\ send_label back = str "Send"
        /\ field_value back = []).
Proof.
  intros H Vst Vback.
  exists (render (submit clock st)),
         (render (settled outcome reply (submit clock st))).
  split; [|split; [apply display_shows, Vback|]].
  - apply display_shows.
    rewrite (submit_nonblank JSON_stringify clock st H). simpl.
    rewrite forallb_app, Vst. reflexivity.
  - unfold render.
    cbn [field_disabled send_disabled send_label field_value].
    destruct (settled_frame outcome reply (submit clock st)) as (L & I & _).
    unfold button_disabled, input_disabled. rewrite L, I.
    rewrite (submit_nonblank JSON_stringify clock st H). simpl.
    repeat split.
Qed.


(** *** Ids *)

(** Dropping entries keeps the ids of the others distinct. *)
Lemma kept_ids_distinct (keep : Message -> bool) (transcript : list Message) :
  NoDup (map id transcript) -> NoDup (map id (filter keep transcript)).
Proof.
  induction transcript as [|m rest IH]; simpl; [auto|].
  rewrite NoDup_cons_iff. intros [Fresh Distinct].
  destruct (keep m); simpl; [|auto].
  apply NoDup_cons; [|auto].
  intros Seen. apply Fresh.
  apply in_map_iff in Seen. destruct Seen as (other & Same & Kept).
  apply filter_In in Kept. rewrite <- Same. apply in_map, Kept.
Qed.

Lemma numeral_is_fresh (low n : N) (l : list Message) :
  Forall (fun m => id m = str "typing"
                   \/ exists k, id m = toString k /\ k <= low) l ->
  low < n ->
  ~ In (toString n) (map id l).
Proof.
  intros B L I. apply in_map_iff in I. destruct I as (m & E & Hm).
  rewrite Forall_forall in B. destruct (B m Hm) as [T | (k & K & Le)].
  - rewrite T in E. symmetry in E. apply JS_eqb_eq in E.
    rewrite toString_not_typing in E. discriminate.
  - rewrite K in E. apply toString_inj in E. lia.
Qed.

Lemma typing_is_fresh (l : list Message) :
  forallb not_typing l = true -> ~ In (str "typing") (map id l).
Proof.
  intros F I. apply in_map_iff in I. destruct I as (m & E & Hm).
  rewrite forallb_forall in F. apply F, not_typing_spec in Hm. contradiction.
Qed.

Lemma NoDup_snoc {A : Type} (l : list A) (a : A) :
  NoDup l -> ~ In a l -> NoDup (l ++ [a]).
Proof.
  intros N I. apply NoDup_app; [exact N | repeat constructor; auto |].
  intros x Hx [<- | []]. contradiction.
Qed.

Lemma dispatch_ids (low next : N) (st : State) (e : Event) :
  waiting_or_idle st ->
  NoDup (map id (messages st)) ->
  Forall (fun m => id m = str "typing"
                   \/ exists k, id m = toString k /\ k <= low)
         (messages st) ->
  low <= next ->
  match e with
  | Change _ => True
  | Submit clock => low < id_now clock /\ id_now clock <= next
  | Settle _ clock => low < reply_now clock + 1 /\ reply_now clock + 1 <= next
  end ->
  NoDup (map id (messages (step st e)))
  /\ Forall (fun m => id m = str "typing"
                      \/ exists k, id m = toString k /\ k <= next)
            (messages (step st e)).
Proof.
  intros Inv Nd Bd Le Cond.
  assert (Up : forall l,
             Forall (fun m => id m = str "typing"
                              \/ exists k, id m = toString k /\ k <= low) l ->
             Forall (fun m => id m = str "typing"
                              \/ exists k, id m = toString k /\ k <= next) l).
  { intros l. apply Forall_impl. intros m [T | (k & K & Lk)]; [left; exact T|].
    right. exists k. split; [exact K | lia]. }
  assert (Sub : Forall (fun m => id m = str "typing"
                              \/ exists k, id m = toString k /\ k <= low)
                       (filter not_typing (messages st))).
  { apply Forall_forall. intros m H. apply filter_In in H.
    rewrite Forall_forall in Bd. apply Bd, H. }
  destruct e as [value|clock|outcome clock]; unfold dispatch.
  - destruct (input_disabled st); simpl; auto.
  - destruct Cond as [Lo Hi]. unfold waiting_or_idle in Inv.
    destruct (isLoading st) eqn:L.
    + rewrite submit_when_waiting by apply Inv. auto.
    + destruct (is_empty (trim (inputValue st))) eqn:E.
      * unfold handleSendMessage. rewrite E. auto.
      * rewrite submit_nonblank
          by (intros A; apply is_empty_spec in A; congruence).
        simpl. split.
        -- change (messages st ++ [?a; ?b]) with (messages st ++ [a] ++ [b]).
           rewrite app_assoc, map_app. apply NoDup_snoc.
           ++ rewrite map_app. apply NoDup_snoc; [exact Nd|].
              exact (numeral_is_fresh low _ _ Bd Lo).
           ++ apply typing_is_fresh. rewrite forallb_app, Inv. simpl.
              rewrite not_typing_numeral. reflexivity.
        -- apply Forall_app. split; [apply Up, Bd|].
           constructor; [|constructor; [|constructor]].
           ++ right. exists (id_now clock). split; [reflexivity | exact Hi].
           ++ left. reflexivity.
  - destruct Cond as [Lo Hi].
    destruct (settled_messages number_truthy JSON_stringify outcome clock st)
      as [M | [r M]]; rewrite M.
    + split; [apply kept_ids_distinct, Nd | apply Up, Sub].
    + split.
      * rewrite map_app. apply NoDup_snoc; [apply kept_ids_distinct, Nd|].
        exact (numeral_is_fresh low _ _ Sub Lo).
      * apply Forall_app. split; [apply Up, Sub|].
        constructor; [|constructor].
        right. exists (reply_now clock + 1). split; [reflexivity | exact Hi].
Qed.

Lemma run_ids (es : list Event) :
  forall (low : N) (st : State),
    waiting_or_idle st ->
    NoDup (map id (messages st)) ->
    Forall (fun m => id m = str "typing"
                     \/ exists k, id m = toString k /\ k <= low)
           (messages st) ->
    ids_grow low es ->
    NoDup (map id (messages (runs es st))).
Proof.
  unfold run. induction es as [|e es IH]; intros low st Inv Nd Bd G; simpl.
  - exact Nd.
  - pose proof (dispatch_waiting_or_idle st e Inv) as Inv'.
    destruct e as [value|clock|outcome clock]; simpl in G.
    + destruct (dispatch_ids low low st (Change value) Inv Nd Bd) as [A B];
        [lia | exact I |].
      exact (IH low _ Inv' A B G).
    + destruct G as [Lo G].
      destruct (dispatch_ids low (id_now clock) st (Submit clock) Inv Nd Bd)
        as [A B]; [lia | split; [exact Lo | lia] |].
      exact (IH _ _ Inv' A B G).
    + destruct G as [Lo G].
      destruct (dispatch_ids low (reply_now clock + 1) st
                  (Settle outcome clock) Inv Nd Bd)
        as [A B]; [lia | split; [exact Lo | lia] |].
      exact (IH _ _ Inv' A B G).
Qed.

(** X10: when the clock readings that become ids grow from one event to
    the next (the clock does not run backwards, and no message is
    submitted within a millisecond of a reply), the ids in the
    transcript, which are the keys of the rows, are pairwise distinct. *)
Theorem row_keys_are_distinct (es : list Event) (t0 : N) :
  ids_grow 1 es ->
  NoDup (map key (rows (render (runs es (initial t0))))).
Proof.
  intros G. simpl. rewrite map_map. simpl.
  change (fun x : Message => id x) with id.
  apply (run_ids es 1 (initial t0)).
  - reflexivity.
  - simpl. constructor; [intros []|constructor].
  - simpl. constructor; [|constructor].
    right. exists 1. split; [reflexivity | lia].
  - exact G.
Qed.

(** *** What the reply shows *)

Lemma if_truthy_keeps (p : option JSON) (v : JSON) :
  if_truthy number_truthy p = Some v -> orFallback v = v.
Proof.
  unfold if_truthy, orNoResponse. destruct p as [w|]; [|discriminate].
  destruct (truthy number_truthy w) eqn:T; [|discriminate].
  intros E; injection E as <-. rewrite T. reflexivity.
Qed.

Lemma settled_with_message
  (response : Response.t) (responseMessage : JSON)
  (clock : ReplyClock) (st : State) :
  Response.ok response = true ->
  readMessage response = Return responseMessage ->
  settled (Resolved response) clock st
  = setIsLoading false
      (toast
         {| title := str "Response received";
            description := str "AI has responded to your message.";
            variant := default |}
         (setMessages
            (fun prev =>
               filter not_typing prev ++
               [ {| id := toString (reply_now clock + 1);
                    text := orFallback responseMessage;
                    type := creator;
                    timestamp := reply_at clock |} ])
            st)).
Proof.
  intros Hok Hread. unfold handleSendMessage_settled.
  rewrite Hok, Hread. reflexivity.
Qed.

(** X11: on a 2xx response whose body is a JSON object, the reply shows
    the member [response] when it is there and truthy, else the member
    [message], else the member [text], each as the value it is, string
    or not; when none is there and truthy (missing, [null], [false],
    zero, the empty string), it shows the serialised object. *)
Theorem object_reply_follows_the_chain
  (response : Response.t) (content : jsstring) (ms : list (jsstring * JSON))
  (clock : ReplyClock) (st : State) :
  Response.ok response = true ->
  Response.body response = Some content ->
  JSON_parse content = Some (JObject ms) ->
  messages (settled (Resolved response) clock st)
  = filter not_typing (messages st) ++
    [ {| id := toString (reply_now clock + 1);
         text :=
           match if_truthy number_truthy (lookup (str "response") ms) with
           | Some v => v
           | None =>
               match if_truthy number_truthy (lookup (str "message") ms) with
               | Some v => v
               | None =>
                   match if_truthy number_truthy (lookup (str "text") ms) with
                   | Some v => v
                   | None => orFallback (JString (JSON_stringify (JObject ms)))
                   end
               end
           end;
         type := creator;
         timestamp := reply_at clock |} ].
Proof.
  intros Hok Hb Hp.
  destruct (parsed_body_returns number_truthy JSON_stringify
              response content (JObject ms) Hb Hp) as [E _]; [discriminate|].
  rewrite extractMessage_object in E.
  rewrite (settled_with_message response _ clock st Hok E). simpl.
  do 3 f_equal.
  destruct (if_truthy number_truthy (lookup (str "response") ms)) eqn:R;
    [exact (if_truthy_keeps _ _ R)|].
  destruct (if_truthy number_truthy (lookup (str "message") ms)) eqn:M;
    [exact (if_truthy_keeps _ _ M)|].
  destruct (if_truthy number_truthy (lookup (str "text") ms)) eqn:T;
    [exact (if_truthy_keeps _ _ T)|].
  reflexivity.
Qed.

(** X12: on a 2xx response whose body is a JSON string, the reply shows
    that string, and [No response received] when it is the empty one. *)
Theorem string_reply_is_shown_as_it_is
  (response : Response.t) (content s : jsstring)
  (clock : ReplyClock) (st : State) :
  Response.ok response = true ->
  Response.body response = Some content ->
  JSON_parse content = Some (JString s) ->
  messages (settled (Resolved response) clock st)
  = filter not_typing (messages st) ++
    [ {| id := toString (reply_now clock + 1);
         text := if is_empty s then JString (str "No response received")
                 else JString s;
         type := creator;
         timestamp := reply_at clock |} ].
Proof.
  intros Hok Hb Hp.
  destruct (parsed_body_returns number_truthy JSON_stringify
              response content (JString s) Hb Hp) as [E _]; [discriminate|].
  rewrite extractMessage_string in E.
  rewrite (settled_with_message response _ clock st Hok E). simpl.
  do 3 f_equal. unfold orNoResponse. simpl. destruct (is_empty s); reflexivity.
Qed.

(** X13: on a 2xx response whose body is a JSON number, boolean or array,
    the reply shows the serialised value ([false] and [0] included: the
    tests of the chain look at members, which these values do not have). *)
Theorem scalar_reply_is_serialised
  (response : Response.t) (content : jsstring) (responseData : JSON)
  (clock : ReplyClock) (st : State) :
  Response.ok response = true ->
  Response.body response = Some content ->
  JSON_parse content = Some responseData ->
  match responseData with
  | JBool _ | JNumber _ | JArray _ => True
  | JNull | JString _ | JObject _ => False
  end ->
  messages (settled (Resolved response) clock st)
  = filter not_typing (messages st) ++
    [ {| id := toString (reply_now clock + 1);
         text := orFallback (JString (JSON_stringify responseData));
         type := creator;
         timestamp := reply_at clock |} ].
Proof.
  intros Hok Hb Hp Hk.
  destruct (parsed_body_returns number_truthy JSON_stringify
              response content responseData Hb Hp) as [E _].
  { destruct responseData; try discriminate; contradiction. }
  pose proof (extractMessage_other number_truthy JSON_stringify responseData) as X.
  destruct responseData; try contradiction; rewrite X in E;
    rewrite (settled_with_message response _ clock st Hok E); reflexivity.
Qed.

(** X14: on a 2xx response whose body is the JSON value [null], the
    property access throws, the catch clause finds the body used up, and
    the request ends as a failed one: the transcript only loses its
    placeholders and the toast is the [Connection Error]. *)
Theorem null_reply_is_a_connection_error
  (response : Response.t) (content : jsstring)
  (clock : ReplyClock) (st : State) :
  Response.ok response = true ->
  Response.body response = Some content ->
  JSON_parse content = Some JNull ->
  settled (Resolved response) clock st
  = setIsLoading false (connectionError st).
Proof.
  intros Hok Hb Hp.
  pose proof (null_body_throws number_truthy JSON_stringify
                response content Hb Hp) as E.
  unfold handleSendMessage_settled. rewrite Hok, E. reflexivity.
Qed.

(** X15: on a 2xx response that has no body (a 204), the reply shows
    [No response received] and the toast is the default one. *)
Theorem bodyless_reply_shows_the_fallback
  (response : Response.t) (clock : ReplyClock) (st : State) :
  Response.ok response = true ->
  Response.body response = None ->
  messages (settled (Resolved response) clock st)
  = filter not_typing (messages st) ++
    [ {| id := toString (reply_now clock + 1);
         text := JString (str "No response received");
         type := creator;
         timestamp := reply_at clock |} ]
  /\ exists t,
       toasts (settled (Resolved response) clock st) = toasts st ++ [t]
       /\ variant t = default.
Proof.
  intros Hok Hb.
  pose proof (null_stream_reads_empty number_truthy JSON_stringify response Hb)
    as E.
  rewrite (settled_with_message response _ clock st Hok E). simpl.
  split; [reflexivity|]. eexists. split; reflexivity.
Qed.

(** A reply whose text is an object blanks the page: on a 2xx response
    whose body is an object with an object as its truthy member
    [response], nothing is displayed after the request has settled. *)
Lemma object_reply_blanks_the_page
  (response : Response.t) (content : jsstring) (ms inner : list (jsstring * JSON))
  (clock : ReplyClock) (st : State) :
  Response.ok response = true ->
  Response.body response = Some content ->
  JSON_parse content = Some (JObject ms) ->
  lookup (str "response") ms = Some (JObject inner) ->
  display (settled (Resolved response) clock st) = None.
Proof.
  intros Hok Hb Hp Hr.
  destruct (parsed_body_returns number_truthy JSON_stringify
              response content (JObject ms) Hb Hp) as [E _]; [discriminate|].
  rewrite extractMessage_object, Hr in E. simpl in E.
  apply (display_is_blank _
           {| id := toString (reply_now clock + 1);
              text := JObject inner;
              type := creator;
              timestamp := reply_at clock |}); [|reflexivity].
  rewrite (settled_with_message response _ clock st Hok E). simpl.
  apply in_or_app. right. left. reflexivity.
Qed.

End More.

(** ** More of the other revisions *)

Section MoreRevisions.

Variable number_truthy : jsstring -> bool.
Variable JSON_stringify : JSON -> jsstring.
Variable ToString : JSON -> Result jsstring.

(** The one toast of [part_001] once a body has parsed: the default one
    when the template literal can quote the reply, the one of the catch
    clause when the conversion throws. *)
Lemma part001_toasts_with_data
  (response : Response.t) (content : jsstring) (responseData : JSON)
  (clock : ReplyClock) (st : State) :
  Response.ok response = true ->
  Response.body response = Some content ->
  JSON_parse content = Some responseData ->
  toasts
    (Part001.handleSendMessage_settled number_truthy ToString
       (Resolved response) clock st)
  = toasts st ++
    [ match ToString (Part001.actualMessage number_truthy responseData) with
      | Return received =>
          {| title := str "Response received";
             description := str "Received: " ++ received;
             variant := default |}
      | Throw _ =>
          {| title := str "Connection Error";
             description :=
               str "Failed to connect to the webhook. Please try again.";
             variant := destructive |}
      end ]
  /\ isLoading
       (Part001.handleSendMessage_settled number_truthy ToString
          (Resolved response) clock st) = false.
Proof.
  intros Hok Hb Hp. unfold Part001.handleSendMessage_settled, response_json.
  rewrite Hok, Hb, Hp. simpl.
  destruct (ToString (Part001.actualMessage number_truthy responseData));
    split; reflexivity.
Qed.

Lemma actualMessage_truthy (responseData : JSON) :
  truthy number_truthy (Part001.actualMessage number_truthy responseData) = true.
Proof.
  unfold Part001.actualMessage, if_truthy.
  destruct responseData as [|b|n|s|l|ms]; try reflexivity.
  destruct (lookup (str "message") ms) as [v|]; [|reflexivity].
  destruct (truthy number_truthy v) eqn:T; [exact T | reflexivity].
Qed.

(** X16: in [part_001], every 2xx response whose body is JSON gets its
    reply: one message of type [creator] is appended, with a truthy
    text, and one toast is shown.  The toast is the default one, quoting
    the text, when the template literal can turn the text into a string;
    when that conversion throws, the catch clause shows the destructive
    [Connection Error] and the reply, queued before, stays.  The value
    [null] is answered too ([responseData?.message]), with
    [No message received from webhook]. *)
Theorem part001_every_json_body_is_answered
  (response : Response.t) (content : jsstring) (responseData : JSON)
  (clock : ReplyClock) (st : State) :
  Response.ok response = true ->
  Response.body response = Some content ->
  JSON_parse content = Some responseData ->
  let st' :=
    Part001.handleSendMessage_settled number_truthy ToString
      (Resolved response) clock st in
  (exists m,
      messages st' = filter not_typing (messages st) ++ [m]
      /\ type m = creator
      /\ truthy number_truthy (text m) = true
      /\ toasts st' =
         toasts st ++
         [ match ToString (text m) with
           | Return received =>
               {| title := str "Response received";
                  description := str "Received: " ++ received;
                  variant := default |}
           | Throw _ =>
               {| title := str "Connection Error";
                  description :=
                    str "Failed to connect to the webhook. Please try again.";
                  variant := destructive |}
           end ])
  /\ isLoading st' = false
  /\ match responseData with
     | JNull =>
         exists m,
           messages st' = filter not_typing (messages st) ++ [m]
           /\ text m = JString (str "No message received from webhook")
     | _ => True
     end.
Proof.
  intros Hok Hb Hp. cbv zeta.
  pose proof (part001_messages_with_data number_truthy ToString
                response content responseData clock st Hok Hb Hp) as M.
  destruct (part001_toasts_with_data
              response content responseData clock st Hok Hb Hp) as [T L].
  split; [|split; [exact L|]].
  - eexists. split; [exact M|]. simpl.
    split; [reflexivity|]. split; [apply actualMessage_truthy | exact T].
  - destruct responseData; try exact I. eexists. split; [exact M | reflexivity].
Qed.

(** X17: [part_001] reads the member [message] only.  On a 2xx response
    whose body is a JSON object, it appends the reply [Index.tsx] appends
    whenever the object has no truthy member [response] and a truthy
    member [message]; a truthy [response] or [text] is what [Index.tsx]
    shows and [part_001] does not look at. *)
Theorem part001_agrees_on_the_message_member
  (response : Response.t) (content : jsstring) (ms : list (jsstring * JSON))
  (v : JSON) (clock : ReplyClock) (st : State) :
  Response.ok response = true ->
  Response.body response = Some content ->
  JSON_parse content = Some (JObject ms) ->
  if_truthy number_truthy (lookup (str "response") ms) = None ->
  if_truthy number_truthy (lookup (str "message") ms) = Some v ->
  messages
    (Part001.handleSendMessage_settled number_truthy ToString
       (Resolved response) clock st)
  = messages
      (handleSendMessage_settled number_truthy JSON_stringify
         (Resolved response) clock st)
  /\ messages
       (Part001.handleSendMessage_settled number_truthy ToString
          (Resolved response) clock st)
     = filter not_typing (messages st) ++
       [ {| id := toString (reply_now clock + 1);
            text := v;
            type := creator;
            timestamp := reply_at clock |} ].
Proof.
  intros Hok Hb Hp Hr Hm.
  destruct (parsed_body_returns number_truthy JSON_stringify
              response content (JObject ms) Hb Hp) as [E _]; [discriminate|].
  rewrite extractMessage_object, Hr, Hm in E.
  rewrite (settled_with_message number_truthy JSON_stringify
             response _ clock st Hok E).
  rewrite (part001_messages_with_data number_truthy ToString
             response content (JObject ms) clock st Hok Hb Hp).
  unfold Part001.actualMessage. rewrite Hm. simpl.
  rewrite (if_truthy_keeps number_truthy _ _ Hm). split; reflexivity.
Qed.

(** *** [part_000] *)

Lemma part000_dispatch_messages (st : State) (e : Event) :
  exists added,
    messages (Part000.dispatch JSON_stringify st e) = messages st ++ added
    /\ Forall (fun m => type m = customer) added
    /\ List.length (requests (Part000.dispatch JSON_stringify st e))
       = (List.length (requests st) + List.length added)%nat.
Proof.
  destruct e as [value|clock|outcome clock]; simpl.
  - exists []. rewrite app_nil_r. destruct (input_disabled st); simpl;
      repeat split; try constructor; simpl; lia.
  - unfold Part000.handleSendMessage.
    destruct (is_empty (trim (inputValue st))); simpl.
    + exists []. rewrite app_nil_r. repeat split; try constructor; simpl; lia.
    + eexists. split; [reflexivity|]. split.
      * constructor; [reflexivity | constructor].
      * rewrite length_app. reflexivity.
  - exists []. rewrite app_nil_r.
    unfold Part000.handleSendMessage_settled.
    destruct outcome; simpl; repeat split; try constructor; simpl; lia.
Qed.

(** X18: in [part_000] the transcript only grows, by messages of type
    [customer]: no event removes or changes an entry, no reply and no
    placeholder is ever shown, and one request is sent for each message
    added. *)
Theorem part000_transcript_only_grows (es : list Event) (st : State) :
  exists added,
    messages (Part000.run JSON_stringify es st) = messages st ++ added
    /\ Forall (fun m => type m = customer) added
    /\ List.length (requests (Part000.run JSON_stringify es st))
       = (List.length (requests st) + List.length added)%nat.
Proof.
  unfold Part000.run. revert st.
  induction es as [|e es IH]; intros st; simpl.
  - exists []. rewrite app_nil_r. repeat split; try constructor; simpl; lia.
  - destruct (part000_dispatch_messages st e) as (hd & M & C & R).
    destruct (IH (Part000.dispatch JSON_stringify st e)) as (tl & M' & C' & R').
    exists (hd ++ tl). rewrite M', M, app_assoc. split; [reflexivity|].
    split; [apply Forall_app; auto|]. rewrite R', R, length_app. lia.
Qed.

(** X19: in [part_000] a settled request shows one toast and leaves the
    transcript, the input and the request log alone; the toast is the
    destructive [Warning] only when the request was rejected: every
    response, whatever its status, gives [Message sent]. *)
Theorem part000_warns_on_rejection_only (outcome : Outcome) (st : State) :
  let st' := Part000.handleSendMessage_settled outcome st in
  (exists t,
      toasts st' = toasts st ++ [t]
      /\ variant t
         = match outcome with
           | Rejected => destructive
           | Resolved _ => default
           end
      /\ title t
         = match outcome with
           | Rejected => str "Warning"
           | Resolved _ => str "Message sent"
           end)
  /\ messages st' = messages st
  /\ inputValue st' = inputValue st
  /\ requests st' = requests st
  /\ isLoading st' = false.
Proof.
  simpl. unfold Part000.handleSendMessage_settled.
  destruct outcome as [|response]; simpl;
    (split; [|repeat split]); eexists; repeat split.
Qed.

End MoreRevisions.

Section SameSubmission.

Variable JSON_stringify : JSON -> jsstring.

(** X20: up to the await, [part_001] does what [Index.tsx] does, but for
    the words of the placeholder and for the request: the same flag and
    input, the same entries that last (those that are not placeholders),
    a placeholder at the same place, and one request more, sent to
    another address with the text under the key [messageText] instead of
    [message]. *)
Theorem part001_submits_like_index (clock : SubmitClock) (st : State) :
  let a := handleSendMessage JSON_stringify clock st in
  let b := Part001.handleSendMessage JSON_stringify clock st in
  isLoading a = isLoading b
  /\ inputValue a = inputValue b
  /\ toasts a = toasts b
  /\ filter not_typing (messages a) = filter not_typing (messages b)
  /\ map id (messages a) = map id (messages b)
  /\ map Request.method (requests a) = map Request.method (requests b)
  /\ if is_empty (trim (inputValue st)) then
       requests a = requests st /\ requests b = requests st
     else
       exists r r',
         requests a = requests st ++ [r]
         /\ requests b = requests st ++ [r']
         /\ Request.body r
            = JSON_stringify
                (JObject [(str "message", JString (trim (inputValue st)))])
         /\ Request.body r'
            = JSON_stringify
                (JObject [(str "messageText", JString (trim (inputValue st)))]).
Proof.
  cbv zeta. unfold handleSendMessage, Part001.handleSendMessage.
  destruct (is_empty (trim (inputValue st))) eqn:E.
  - repeat split.
  - simpl. rewrite !filter_app, !map_app. simpl.
    repeat split. do 2 eexists. repeat split.
Qed.

End SameSubmission.

(** ** Instances of the above *)

(** A reply one millisecond before a submission gives the two the same
    id: ids are distinct only under a condition on the clock. *)
Example keys_collide_within_a_millisecond :
  map id
    (messages
       (run digits_truthy stringify_as_written
          [ Change (str "a");
            Submit {| id_now := 5; sent_at := 5; typing_at := 5 |};
            Settle (Resolved {| Response.status := 200;
                                Response.body := Some body_message_hello |})
                   {| reply_now := 10; reply_at := 10 |};
            Change (str "b");
            Submit {| id_now := 11; sent_at := 11; typing_at := 11 |} ]
          (initial 0)))
  = [str "1"; str "5"; str "11"; str "11"; str "typing"].
Proof. vm_compute. reflexivity. Qed.

(** [part_001] on a reply that the template literal cannot quote: the
    reply is appended and the toast is the [Connection Error]. *)
Example part001_unprintable_reply :
  let st' :=
    Part001.handleSendMessage_settled digits_truthy to_string_as_written
      (Resolved {| Response.status := 200;
                   Response.body := Some body_message_unprintable |})
      later
      (Part001.handleSendMessage stringify_as_written noon typed_hi) in
  map (fun m => (text m, type m)) (messages st')
  = [ (JString (str "Hey there! What can I help you with today?"), creator);
      (JString (str "hi"), customer);
      (JObject [(str "toString", JNumber (str "1"))], creator) ]
  /\ map (fun t => (title t, variant t)) (toasts st')
     = [ (str "Connection Error", destructive) ].
Proof. split; vm_compute; reflexivity. Qed.

(** [Index.tsx] on a reply whose member [message] is an object: the
    object is stored as the text and the page is blank. *)
Example object_text_blanks_the_page :
  display
    (handleSendMessage_settled digits_truthy stringify_as_written
       (Resolved {| Response.status := 200;
                    Response.body := Some body_message_object |})
       later (handleSendMessage stringify_as_written noon typed_hi))
  = None.
Proof. vm_compute. reflexivity. Qed.

Lemma shown_text_is_sent_text_witness :
  trim (inputValue typed_hi) <> []
  /\ inputValue (handleSendMessage stringify_as_written noon typed_hi) = [].
Proof.
  split; [discriminate|].
  apply (shown_text_is_sent_text stringify_as_written noon typed_hi).
  discriminate.
Defined.

Lemma round_trip_of_the_form_witness :
  trim (inputValue typed_hi) <> []
  /\ forallb (fun m => valid_child (text m)) (messages typed_hi) = true
  /\ forallb (fun m => valid_child (text m))
       (messages
          (handleSendMessage_settled digits_truthy stringify_as_written
             Rejected later
             (handleSendMessage stringify_as_written noon typed_hi))) = true
  /\ exists sent back,
       display (handleSendMessage stringify_as_written noon typed_hi)
       = Some sent
       /\ display
            (handleSendMessage_settled digits_truthy stringify_as_written
               Rejected later
               (handleSendMessage stringify_as_written noon typed_hi))
          = Some back
       /\ (field_disabled sent = true
           /\ send_disabled sent = true
           /\ send_label sent = str "Sending..."
           /\ field_value sent = [])
       /\ (field_disabled back = false
           /\ send_disabled back = true
           /\ send_label back = str "Send"
           /\ field_value back = []).
Proof.
  split; [discriminate|]. split; [reflexivity|]. split; [reflexivity|].
  apply (round_trip_of_the_form digits_truthy stringify_as_written
           noon Rejected later typed_hi).
  - discriminate.
  - reflexivity.
  - reflexivity.
Defined.

Lemma row_keys_are_distinct_witness :
  ids_grow 1
    [ Change (str "hi"); Submit noon;
      Settle (Resolved {| Response.status := 200;
                          Response.body := Some body_message_hello |}) later ]
  /\ NoDup
       (map key
          (rows
             (render
                (run digits_truthy stringify_as_written
                   [ Change (str "hi"); Submit noon;
                     Settle (Resolved {| Response.status := 200;
                                         Response.body := Some body_message_hello |})
                            later ]
                   (initial 0))))).
Proof.
  assert (G : ids_grow 1
                [ Change (str "hi"); Submit noon;
                  Settle (Resolved {| Response.status := 200;
                                      Response.body := Some body_message_hello |})
                         later ]).
  { simpl. repeat split; reflexivity. }
  split; [exact G|].
  exact (row_keys_are_distinct digits_truthy stringify_as_written _ 0 G).
Defined.

Lemma object_reply_witness :
  Response.ok {| Response.status := 200; Response.body := Some body_message_hello |}
  = true
  /\ JSON_parse body_message_hello
     = Some (JObject [(str "message", JString (str "Hello"))])
  /\ messages
       (handleSendMessage_settled digits_truthy stringify_as_written
          (Resolved {| Response.status := 200;
                       Response.body := Some body_message_hello |})
          later typed_hi)
     = filter not_typing (messages typed_hi) ++
       [ {| id := toString (reply_now later + 1);
            text := JString (str "Hello");
            type := creator;
            timestamp := reply_at later |} ].
Proof.
  split; [reflexivity|]. split; [reflexivity|].
  apply (object_reply_follows_the_chain digits_truthy stringify_as_written
           {| Response.status := 200; Response.body := Some body_message_hello |}
           body_message_hello [(str "message", JString (str "Hello"))]
           later typed_hi);
    reflexivity.
Defined.

Lemma string_reply_witness :
  Response.ok {| Response.status := 200; Response.body := Some (quoted "ok") |}
  = true
  /\ JSON_parse (quoted "ok") = Some (JString (str "ok"))
  /\ messages
       (handleSendMessage_settled digits_truthy stringify_as_written
          (Resolved {| Response.status := 200;
                       Response.body := Some (quoted "ok") |})
          later typed_hi)
     = filter not_typing (messages typed_hi) ++
       [ {| id := toString (reply_now later + 1);
            text := JString (str "ok");
            type := creator;
            timestamp := reply_at later |} ].
Proof.
  split; [reflexivity|]. split; [reflexivity|].
  apply (string_reply_is_shown_as_it_is digits_truthy stringify_as_written
           {| Response.status := 200; Response.body := Some (quoted "ok") |}
           (quoted "ok") (str "ok") later typed_hi);
    reflexivity.
Defined.

Lemma scalar_reply_witness :
  Response.ok {| Response.status := 200; Response.body := Some (str "false") |}
  = true
  /\ JSON_parse (str "false") = Some (JBool false)
  /\ messages
       (handleSendMessage_settled digits_truthy stringify_as_written
          (Resolved {| Response.status := 200;
                       Response.body := Some (str "false") |})
          later typed_hi)
     = filter not_typing (messages typed_hi) ++
       [ {| id := toString (reply_now later + 1);
            text := JString (str "false");
            type := creator;
            timestamp := reply_at later |} ].
Proof.
  split; [reflexivity|]. split; [reflexivity|].
  apply (scalar_reply_is_serialised digits_truthy stringify_as_written
           {| Response.status := 200; Response.body := Some (str "false") |}
           (str "false") (JBool false) later typed_hi);
    reflexivity.
Defined.

Lemma null_reply_witness :
  Response.ok {| Response.status := 200; Response.body := Some (str "null") |}
  = true
  /\ JSON_parse (str "null") = Some JNull
  /\ handleSendMessage_settled digits_truthy stringify_as_written
       (Resolved {| Response.status := 200; Response.body := Some (str "null") |})
       later typed_hi
     = setIsLoading false (connectionError typed_hi).
Proof.
  split; [reflexivity|]. split; [reflexivity|].
  apply (null_reply_is_a_connection_error digits_truthy stringify_as_written
           {| Response.status := 200; Response.body := Some (str "null") |}
           (str "null") later typed_hi);
    reflexivity.
Defined.

Lemma bodyless_reply_witness :
  Response.ok {| Response.status := 204; Response.body := None |} = true
  /\ messages
       (handleSendMessage_settled digits_truthy stringify_as_written
          (Resolved {| Response.status := 204; Response.body := None |})
          later typed_hi)
     = filter not_typing (messages typed_hi) ++
       [ {| id := toString (reply_now later + 1);
            text := JString (str "No response received");
            type := creator;
            timestamp := reply_at later |} ].
Proof.
  split; [reflexivity|].
  apply (bodyless_reply_shows_the_fallback digits_truthy stringify_as_written
           {| Response.status := 204; Response.body := None |} later typed_hi);
    reflexivity.
Defined.

Lemma part001_answer_witness :
  Response.ok {| Response.status := 200; Response.body := Some (str "null") |}
  = true
  /\ JSON_parse (str "null") = Some JNull
  /\ exists m,
       messages
         (Part001.handleSendMessage_settled digits_truthy to_string_as_written
            (Resolved {| Response.status := 200;
                         Response.body := Some (str "null") |})
            later typed_hi)
       = filter not_typing (messages typed_hi) ++ [m]
       /\ text m = JString (str "No message received from webhook").
Proof.
  split; [reflexivity|]. split; [reflexivity|].
  apply (part001_every_json_body_is_answered digits_truthy to_string_as_written
           {| Response.status := 200; Response.body := Some (str "null") |}
           (str "null") JNull later typed_hi);
    reflexivity.
Defined.

Lemma part001_agreement_witness :
  Response.ok {| Response.status := 200; Response.body := Some body_message_hello |}
  = true
  /\ JSON_parse body_message_hello
     = Some (JObject [(str "message", JString (str "Hello"))])
  /\ messages
       (Part001.handleSendMessage_settled digits_truthy to_string_as_written
          (Resolved {| Response.status := 200;
                       Response.body := Some body_message_hello |})
          later typed_hi)
     = messages
         (handleSendMessage_settled digits_truthy stringify_as_written
            (Resolved {| Response.status := 200;
                         Response.body := Some body_message_hello |})
            later typed_hi).
Proof.
  split; [reflexivity|]. split; [reflexivity|].
  apply (part001_agrees_on_the_message_member
           digits_truthy stringify_as_written to_string_as_written
           {| Response.status := 200; Response.body := Some body_message_hello |}
           body_message_hello [(str "message", JString (str "Hello"))]
           (JString (str "Hello")) later typed_hi);
    reflexivity.
Defined.
